(** * OpenPiton CPU wrapper of LiteX: the AXI to Wishbone bridge wiring

    A shallow embedding of [litex/soc/cores/cpu/openpiton/core.py].  The file
    is a Migen/LiteX hardware description: signals are unsigned bit vectors
    (here [Z] together with a width), combinational statements are pure
    functions of the signal values, and synchronous logic is a step function
    from the registers of one clock cycle to those of the next. *)

From Stdlib Require Import ZArith List Bool String Lia.
Import ListNotations.
Local Open Scope Z_scope.

(** ** Migen primitives used by the wrapper *)
Module Migen.

(** Python's [int.bit_length]. *)
Definition bit_length (m : Z) : Z :=
  if m =? 0 then 0 else Z.log2 (Z.abs m) + 1.

(** [migen.fhdl.bitcontainer.log2_int]: [None] stands for the
    [ValueError("Not a power of 2")]. *)
Definition log2_int (n : Z) (need_pow2 : bool) : option Z :=
  if n =? 0 then Some 0
  else
    let r := bit_length (n - 1) in
    if need_pow2 && negb (Z.shiftl 1 r =? n) then None else Some r.

(** [migen.fhdl.bitcontainer.bits_for], without a sign bit requested. *)
Definition bits_for (n : Z) : option Z :=
  if 0 <? n then log2_int (n + 1) false
  else option_map (fun r => r + 1) (log2_int (- n) false).

(** The value a signal [w] bits wide holds after [sig.eq(v)]: the right-hand
    side is cut to the width of the left-hand side (a narrower unsigned
    right-hand side is extended with zeros, which leaves the integer as it
    is). *)
Definition eq_ (w : Z) (v : Z) : Z := v mod 2 ^ w.

(** The slice [v[lo:hi]] of a signal. *)
Definition slice (v lo hi : Z) : Z := Z.shiftr v lo mod 2 ^ (hi - lo).

(** The single bit [v[k]]. *)
Definition bit (v k : Z) : bool := Z.testbit v k.

(** [Replicate(v, n)] for a [w]-bit [v]: [n] copies of [v] side by side,
    the first copy in the low bits. *)
Fixpoint Replicate (w : Z) (v : Z) (n : nat) : Z :=
  match n with
  | O => 0
  | S n' => Z.lor (eq_ w v) (Z.shiftl (Replicate w v n') w)
  end.

(** The value of a signal whose slice [[lo:hi]] is driven by [sig[lo:hi].eq(rhs)]
    while the rest keeps the value [old] given by the statements before it
    (in a combinational block the last assignment to a bit wins). *)
Definition eq_slice (old lo hi rhs : Z) : Z :=
  Z.lor (Z.lor (old mod 2 ^ lo) (Z.shiftl (eq_ (hi - lo) rhs) lo))
        (Z.shiftl (Z.shiftr old hi) hi).

(** A register of a clock domain: on an edge with the domain's reset high
    it loads its reset value, otherwise the value its [sync] statements
    compute. *)
Definition sync {St : Type} (domain_rst : bool) (reset_value next : St) : St :=
  if domain_rst then reset_value else next.

(** [migen.genlib.misc.WaitTimer(t)]: a down counter with reset value [t];
    [done] is [count == 0]; while [wait] is high the counter counts down
    until [done], and it reloads when [wait] is low. *)
Module WaitTimer.
Record t := mk { t_ : Z; count : Z }.
Definition init (ticks : Z) : t := {| t_ := ticks; count := ticks |}.
Definition done (wt : t) : bool := count wt =? 0.
Definition width (wt : t) : Z :=
  match bits_for (t_ wt) with Some w => w | None => 0 end.
Definition next (wt : t) (wait : bool) : t :=
  if wait then
    if negb (done wt)
    then {| t_ := t_ wt; count := eq_ (width wt) (count wt - 1) |}
    else wt
  else {| t_ := t_ wt; count := t_ wt |}.
End WaitTimer.

End Migen.


(** ** LiteX bus interfaces *)

(** The Python objects the constructor creates are told apart by identity;
    each interface records the attribute of the CPU object it is bound to. *)
Module Name.
Inductive t :=
| mem_axi | mem_wb | io_wb | mem_axi_litex | io_axi_litex | io_axi_down_conv.
Definition eqb (a b : t) : bool :=
  match a, b with
  | mem_axi, mem_axi | mem_wb, mem_wb | io_wb, io_wb
  | mem_axi_litex, mem_axi_litex | io_axi_litex, io_axi_litex
  | io_axi_down_conv, io_axi_down_conv => true
  | _, _ => false
  end.
End Name.

Module wishbone.
Record Interface := mk { name : Name.t; data_width : Z; adr_width : Z }.
End wishbone.

Definition bind {A B : Type} (o : option A) (k : A -> option B) : option B :=
  match o with Some a => k a | None => None end.
Notation "x <- o ;; k" := (bind o (fun x => k))
  (at level 61, o at next level, right associativity).

Module axi.

Record AXIInterface := mk
  { name : Name.t; data_width : Z; address_width : Z; id_width : Z }.

(** Payloads of the five channels, with the fields the wrapper names when it
    binds the core's ports.  [last] is the burst marker of the stream. *)
Record AxBeat := mkAx
  { ax_id : Z; ax_addr : Z; ax_len : Z; ax_size : Z; ax_burst : Z;
    ax_lock : Z; ax_cache : Z; ax_prot : Z; ax_qos : Z }.
Record WBeat := mkW { w_id : Z; w_data : Z; w_strb : Z; w_last : bool }.
Record BBeat := mkB { b_id : Z; b_resp : Z }.
Record RBeat := mkR { r_id : Z; r_data : Z; r_resp : Z; r_last : bool }.

(** [master.connect(slave)] gives the combinational assignments that drive
    every field of the slave's request channels ([aw], [w], [ar]) from the
    master's field of the same name, and every field of the master's response
    channels ([b], [r]) from the slave's.  Each is a plain [eq], so a field
    whose width follows the interface ([id], [addr], [data], [strb]) is cut
    to the width it has on the driven side; the other fields are as wide on
    both sides.  The statements sit in [self.comb]: a beat passes on one side
    in exactly the cycles it passes on the other. *)
Definition connect_ax (master slave : AXIInterface) (b : AxBeat) : AxBeat :=
  {| ax_id := Migen.eq_ (id_width slave) (ax_id b);
     ax_addr := Migen.eq_ (address_width slave) (ax_addr b);
     ax_len := ax_len b; ax_size := ax_size b; ax_burst := ax_burst b;
     ax_lock := ax_lock b; ax_cache := ax_cache b; ax_prot := ax_prot b;
     ax_qos := ax_qos b |}.

Definition connect_w (master slave : AXIInterface) (b : WBeat) : WBeat :=
  {| w_id := Migen.eq_ (id_width slave) (w_id b);
     w_data := Migen.eq_ (data_width slave) (w_data b);
     w_strb := Migen.eq_ (data_width slave / 8) (w_strb b);
     w_last := w_last b |}.

Definition connect_b (master slave : AXIInterface) (b : BBeat) : BBeat :=
  {| b_id := Migen.eq_ (id_width master) (b_id b); b_resp := b_resp b |}.

Definition connect_r (master slave : AXIInterface) (b : RBeat) : RBeat :=
  {| r_id := Migen.eq_ (id_width master) (r_id b);
     r_data := Migen.eq_ (data_width master) (r_data b);
     r_resp := r_resp b;
     r_last := r_last b |}.

(** *** Region decoder *)
Module AXIDecoder.

(** One entry of the decoder's table: a predicate on the address the decoder
    hands it, and the interface selected when it holds. *)
Definition Region : Type := (Z -> bool) * AXIInterface.

Record t := mk
  { master : AXIInterface; slaves : list Region; addr_shift : Z }.

Inductive Routed := To (slave : AXIInterface) | RoutingError.

(** Modelled from the spec: the body of [axi.AXIDecoder] is not part of the
    sources at hand.  Section 4.1: the decoder takes an ordered list of
    (predicate, outbound channel) pairs, evaluates the predicates in list
    order on each address-phase beat and forwards the transaction to the
    first one that matches; [RoutingError] when none does. *)
Fixpoint first_match (slaves : list Region) (a : Z) : Routed :=
  match slaves with
  | [] => RoutingError
  | (decoder, bus) :: rest => if decoder a then To bus else first_match rest a
  end.

(** Modelled from the spec: construction of [axi.AXIDecoder(master, slaves)].
    The predicates of LiteX decoders take the address in units of bus words,
    [master.aw.addr[addr_shift:]] with [addr_shift = log2_int(data_width//8)];
    the wrapper's predicates are written against it (they index bit
    [31 - log2_int(data_width//8)]), and with it the table is the one of the
    spec's scenario 1, [addr[31] == 0] and [addr[31] == 1]. *)
Definition new (master : AXIInterface) (slaves : list Region) : option t :=
  s <- Migen.log2_int (data_width master / 8) true ;;
  Some {| master := master; slaves := slaves; addr_shift := s |}.

Definition word_addr (d : t) (addr : Z) : Z :=
  Migen.slice addr (addr_shift d) (address_width (master d)).

Definition route (d : t) (addr : Z) : Routed :=
  first_match (slaves d) (word_addr d addr).

(** How many predicates of the table hold at an address. *)
Definition matches (d : t) (addr : Z) : nat :=
  List.length (filter (fun r : Region => fst r (word_addr d addr)) (slaves d)).

(** Modelled from the spec: the decoder's state.  Section 4.1: it holds no
    more than the route of each in-flight [id], kept so that the data and
    response beats of that [id] follow the address beat; it is idle when no
    route is held. *)
Definition State : Type := list (Z * AXIInterface).
Definition IDLE : State := [].

Record In := mkIn
  { address_beat : option AxBeat;   (* an address-phase beat accepted *)
    retired : option Z }.           (* the id whose last beat passed *)

Definition step (d : t) (st : State) (i : In) : State * option Routed :=
  let st1 := match retired i with
             | Some k => filter (fun e => negb (fst e =? k)) st
             | None => st
             end in
  match address_beat i with
  | None => (st1, None)
  | Some b =>
      match route d (ax_addr b) with
      | To bus => ((ax_id b, bus) :: st1, Some (To bus))
      | RoutingError => (st1, Some RoutingError)
      end
  end.

End AXIDecoder.

(** *** Protocol converter *)

(** Modelled from the spec: a stage behind [ResetInserter()].  Migen loads the
    stage's registers with their reset values on a clock edge with [reset]
    high; by the reset contract of section 4.3 the stage completes nothing on
    that tick ([quiet] is its output with nothing emitted). *)
Definition ResetInserter {St In Out : Type} (reset_value : St) (quiet : Out)
    (step : St -> In -> St * Out) (reset : bool) (st : St) (i : In)
  : St * Out :=
  if reset then (reset_value, quiet) else step st i.

Module AXI2Wishbone.

Inductive Kind := Read | Write.

Record Transaction := mkTxn
  { kind : Kind; header : AxBeat; beats : list WBeat }.

Definition id (t : Transaction) : Z := ax_id (header t).

Definition append (b : WBeat) (t : Transaction) : Transaction :=
  {| kind := kind t; header := header t; beats := beats t ++ [b] |}.

Definition has_last (t : Transaction) : bool := existsb w_last (beats t).

Inductive Result := OKAY (data : Z) | DownstreamTimeout.

(** Modelled from the spec: the body of [axi.AXI2Wishbone] is not part of the
    sources at hand.  Section 4.3 gives the states of the converter:
    [IDLE] waits for an address-phase beat; [ADDR_ACCEPTED] has the address
    and awaits the first data beat of a write or issues the downstream
    request of a read; [DATA_TRANSFER] gathers write beats until [last], or
    has the read request outstanding; [RESP_PENDING] awaits the downstream
    acknowledge; [COMPLETE] has returned the response and retires the
    transaction.  [RESP_PENDING] counts the ticks it has waited. *)
Inductive State :=
| IDLE
| ADDR_ACCEPTED (t : Transaction)
| DATA_TRANSFER (t : Transaction)
| RESP_PENDING (t : Transaction) (waited : nat)
| COMPLETE (t : Transaction).

Record In := mkIn
  { address_beat : option (Kind * AxBeat);  (* upstream address phase *)
    data_beat : option WBeat;               (* upstream write data phase *)
    ack : option Z }.                       (* downstream acknowledge, with data *)

Record Out := mkOut
  { request : option Transaction;           (* downstream request issued *)
    completion : option (Z * Result) }.     (* upstream response, by id *)

Definition quiet : Out := {| request := None; completion := None |}.
Definition issue (t : Transaction) : Out :=
  {| request := Some t; completion := None |}.
Definition complete (t : Transaction) (r : Result) : Out :=
  {| request := None; completion := Some (id t, r) |}.

(** Modelled from the spec: one tick of the converter (sections 4.3 and 5).
    The wait for the acknowledge is bounded by [timeout_ticks]: the tick on
    which the wait reaches the bound surfaces [DownstreamTimeout] for the
    transaction, which is dropped without a retry. *)
Definition step (timeout_ticks : nat) (st : State) (i : In) : State * Out :=
  match st with
  | IDLE =>
      match address_beat i with
      | Some (k, h) => (ADDR_ACCEPTED (mkTxn k h []), quiet)
      | None => (IDLE, quiet)
      end
  | ADDR_ACCEPTED t =>
      match kind t with
      | Read => (DATA_TRANSFER t, issue t)
      | Write =>
          match data_beat i with
          | Some b => (DATA_TRANSFER (append b t), quiet)
          | None => (ADDR_ACCEPTED t, quiet)
          end
      end
  | DATA_TRANSFER t =>
      match kind t with
      | Read => (RESP_PENDING t 0, quiet)
      | Write =>
          if has_last t then (RESP_PENDING t 0, issue t)
          else
            match data_beat i with
            | Some b => (DATA_TRANSFER (append b t), quiet)
            | None => (DATA_TRANSFER t, quiet)
            end
      end
  | RESP_PENDING t waited =>
      match ack i with
      | Some d => (COMPLETE t, complete t (OKAY d))
      | None =>
          if (timeout_ticks <=? S waited)%nat
          then (IDLE, complete t DownstreamTimeout)
          else (RESP_PENDING t (S waited), quiet)
      end
  | COMPLETE t => (IDLE, quiet)
  end.

(** The converter behind its reset input, as the wrapper instantiates it. *)
Definition step_r (timeout_ticks : nat) (st : State) (ri : bool * In)
  : State * Out :=
  ResetInserter IDLE quiet (step timeout_ticks) (fst ri) st (snd ri).

(** The outputs of a run over a list of (reset, input) ticks, and the state
    it ends in. *)
Fixpoint run (timeout_ticks : nat) (st : State) (ins : list (bool * In))
  : State * list Out :=
  match ins with
  | [] => (st, [])
  | ri :: rest =>
      let (st', o) := step_r timeout_ticks st ri in
      let (st'', os) := run timeout_ticks st' rest in
      (st'', o :: os)
  end.

(** The transaction a state holds, if any. *)
Definition in_flight (st : State) : option Transaction :=
  match st with
  | IDLE => None
  | ADDR_ACCEPTED t | DATA_TRANSFER t | RESP_PENDING t _ | COMPLETE t => Some t
  end.

(** Whether a tick offers an address-phase beat with the id [k], whether an
    output completes a transaction with the id [k], and whether a state holds
    one. *)
Definition offers (k : Z) (ri : bool * In) : bool :=
  match address_beat (snd ri) with
  | Some (_, h) => ax_id h =? k
  | None => false
  end.
Definition completes (k : Z) (o : Out) : bool :=
  match completion o with
  | Some (k', _) => k' =? k
  | None => false
  end.
Definition holds (k : Z) (st : State) : bool :=
  match in_flight st with
  | Some t => id t =? k
  | None => false
  end.

Definition silent : In :=
  {| address_beat := None; data_beat := None; ack := None |}.

End AXI2Wishbone.

End axi.

(** ** The [OpenPiton] class *)
Module OpenPiton.
Import axi.

Definition CPU_VARIANTS : list string := ["standard"%string].
Definition data_width : Z := 512.
Definition addr_width : Z := 64.
Definition reset_address : Z := 0x00000000.
(** Origin, length. *)
Definition io_regions : list (Z * Z) := [(0x80000000, 0x80000000)].
Definition mem_map : list (string * Z) :=
  [("main_ram"%string, 0x40000000); ("csr"%string, 0x80000000)].

(** What [__init__] leaves in the object. *)
Record t := mk
  { variant : string;
    mem_axi : AXIInterface;
    mem_wb : wishbone.Interface;
    io_wb : wishbone.Interface;
    mem_axi_litex : AXIInterface;
    io_axi_litex : AXIInterface;
    io_axi_down_conv : AXIInterface;
    periph_buses : list wishbone.Interface;
    memory_buses : list wishbone.Interface;
    wait_timer : Migen.WaitTimer.t;
    op2litex_decoder : AXIDecoder.t;
    (* the ports of [mem_bus_a2w] and [io_bus_a2w], and the two sides of
       [io_axi_litex.connect(io_axi_down_conv)] *)
    mem_bus_a2w_ports : AXIInterface * wishbone.Interface;
    io_bus_a2w_ports : AXIInterface * wishbone.Interface;
    io_connect : AXIInterface * AXIInterface }.

(** [OpenPiton.__init__]; [None] is an exception raised on the way. *)
Definition __init__ (variant : string) : option t :=
  let mem_axi := axi.mk Name.mem_axi data_width addr_width 4 in
  k_mem <- Migen.log2_int (data_width / 8) true ;;
  let mem_wb := wishbone.mk Name.mem_wb data_width (64 - k_mem) in
  k_io <- Migen.log2_int (32 / 8) true ;;
  let io_wb := wishbone.mk Name.io_wb 32 (64 - k_io) in
  let mem_axi_litex := axi.mk Name.mem_axi_litex data_width addr_width 4 in
  let io_axi_litex := axi.mk Name.io_axi_litex data_width addr_width 4 in
  let io_axi_down_conv := axi.mk Name.io_axi_down_conv 32 addr_width 4 in
  let wait_timer := Migen.WaitTimer.init 5000 in
  k0 <- Migen.log2_int (axi.data_width mem_axi / 8) true ;;
  k1 <- Migen.log2_int (axi.data_width mem_axi / 8) true ;;
  op2litex_decoder <-
    AXIDecoder.new mem_axi
      [ (fun addr => negb (Migen.bit addr (31 - k0)), mem_axi_litex);
        (fun addr => Migen.bit addr (31 - k1), io_axi_litex) ] ;;
  Some {| variant := variant;
          mem_axi := mem_axi;
          mem_wb := mem_wb;
          io_wb := io_wb;
          mem_axi_litex := mem_axi_litex;
          io_axi_litex := io_axi_litex;
          io_axi_down_conv := io_axi_down_conv;
          periph_buses := [mem_wb; io_wb];
          memory_buses := [];
          wait_timer := wait_timer;
          op2litex_decoder := op2litex_decoder;
          mem_bus_a2w_ports := (mem_axi_litex, mem_wb);
          io_bus_a2w_ports := (io_axi_down_conv, io_wb);
          io_connect := (io_axi_litex, io_axi_down_conv) |}.

(** The Wishbone bus at the end of the path that starts at a slave of the
    decoder: through a converter at once, or through [connect] and then a
    converter. *)
Definition wishbone_of (c : t) (s : AXIInterface) : option wishbone.Interface :=
  let via (a : AXIInterface) (p : AXIInterface * wishbone.Interface) :=
    if Name.eqb (axi.name a) (axi.name (fst p)) then Some (snd p) else None in
  let direct (a : AXIInterface) :=
    match via a (mem_bus_a2w_ports c) with
    | Some w => Some w
    | None => via a (io_bus_a2w_ports c)
    end in
  match direct s with
  | Some w => Some w
  | None =>
      if Name.eqb (axi.name s) (axi.name (fst (io_connect c)))
      then direct (snd (io_connect c)) else None
  end.

(** *** The I/O region path (combinational)

    [io_axi_litex.connect(io_axi_down_conv)] followed by the statement on
    [io_axi_litex.r.data[32:]]. *)
Definition io_aw (c : t) : AxBeat -> AxBeat :=
  connect_ax (io_axi_litex c) (io_axi_down_conv c).
Definition io_ar (c : t) : AxBeat -> AxBeat :=
  connect_ax (io_axi_litex c) (io_axi_down_conv c).
Definition io_w (c : t) : WBeat -> WBeat :=
  connect_w (io_axi_litex c) (io_axi_down_conv c).
Definition io_b (c : t) : BBeat -> BBeat :=
  connect_b (io_axi_litex c) (io_axi_down_conv c).

(** The read response seen on [io_axi_litex.r] for the beat [down] on
    [io_axi_down_conv.r]: [connect] drives the whole [data] field, then the
    later statement drives its bits from 32 up with [Replicate(..., 512//32)]. *)
Definition io_r (c : t) (down : RBeat) : RBeat :=
  let up := connect_r (io_axi_litex c) (io_axi_down_conv c) down in
  {| r_id := r_id up;
     r_data :=
       Migen.eq_slice (r_data up) 32 (axi.data_width (io_axi_litex c))
         (Migen.Replicate (axi.data_width (io_axi_down_conv c))
            (r_data down) (Z.to_nat (512 / 32)));
     r_resp := r_resp up;
     r_last := r_last up |}.

(** The beats on the narrow side for the beats on the wide side, and back. *)
Definition io_aw_stream (c : t) : list AxBeat -> list AxBeat := map (io_aw c).
Definition io_w_stream (c : t) : list WBeat -> list WBeat := map (io_w c).
Definition io_ar_stream (c : t) : list AxBeat -> list AxBeat := map (io_ar c).
Definition io_b_stream (c : t) : list BBeat -> list BBeat := map (io_b c).
Definition io_r_stream (c : t) : list RBeat -> list RBeat := map (io_r c).

(** The [k]-th lane, [w] bits wide, of a data word. *)
Definition lane (w : Z) (data : Z) (k : Z) : Z :=
  Migen.slice data (w * k) (w * k + w).

(** The number of byte lanes a write beat enables. *)
Fixpoint popcount (n : nat) (strb : Z) : nat :=
  match n with
  | O => O
  | S n' => ((if Z.odd strb then 1 else 0) + popcount n' (Z.div2 strb))%nat
  end.
Definition enabled_bytes (i : AXIInterface) (beats : list WBeat) : nat :=
  fold_right (fun b acc =>
      (popcount (Z.to_nat (axi.data_width i / 8)) (w_strb b) + acc)%nat)
    O beats.

(** *** Clocked behaviour *)

(** The registers of the wrapper: the wait timer, and the three stages
    behind a [ResetInserter]. *)
Record State := mkState
  { timer : Migen.WaitTimer.t;
    decoder_st : AXIDecoder.State;
    mem_bus_a2w : AXI2Wishbone.State;
    io_bus_a2w : AXI2Wishbone.State }.

(** What one clock cycle brings from outside: the reset of the [sys] domain
    ([ResetSignal()]), the CPU's own [reset], and the traffic offered to each
    stage. *)
Record Inputs := mkInputs
  { ResetSignal : bool;
    reset : bool;
    decoder_in : AXIDecoder.In;
    mem_in : AXI2Wishbone.In;
    io_in : AXI2Wishbone.In }.

Record Outputs := mkOutputs
  { i_sys_rst_n : bool;                  (* the core's reset pin, active low *)
    decoder_out : option AXIDecoder.Routed;
    mem_out : AXI2Wishbone.Out;
    io_out : AXI2Wishbone.Out }.

(** The reset input of each of [op2litex_decoder], [mem_bus_a2w] and
    [io_bus_a2w]: [ResetSignal() | self.reset]. *)
Definition stage_reset (i : Inputs) : bool := ResetSignal i || reset i.

Definition power_up (c : t) : State :=
  {| timer := wait_timer c;
     decoder_st := AXIDecoder.IDLE;
     mem_bus_a2w := AXI2Wishbone.IDLE;
     io_bus_a2w := AXI2Wishbone.IDLE |}.

(** One clock cycle.  The timer's [wait] is tied to 1 and its [done] is the
    core's [sys_rst_n]; [timeout_ticks] is the converters' bound. *)
Definition tick (c : t) (timeout_ticks : nat) (s : State) (i : Inputs)
  : State * Outputs :=
  let d := ResetInserter AXIDecoder.IDLE None
             (AXIDecoder.step (op2litex_decoder c))
             (stage_reset i) (decoder_st s) (decoder_in i) in
  let m := AXI2Wishbone.step_r timeout_ticks (mem_bus_a2w s)
             (stage_reset i, mem_in i) in
  let o := AXI2Wishbone.step_r timeout_ticks (io_bus_a2w s)
             (stage_reset i, io_in i) in
  ({| timer := Migen.sync (ResetSignal i) (wait_timer c)
                 (Migen.WaitTimer.next (timer s) true);
      decoder_st := fst d;
      mem_bus_a2w := fst m;
      io_bus_a2w := fst o |},
   {| i_sys_rst_n := Migen.WaitTimer.done (timer s);
      decoder_out := snd d;
      mem_out := snd m;
      io_out := snd o |}).

(** The registers at the start of cycle [n], and what cycle [n] puts out. *)
Fixpoint state_at (c : t) (timeout_ticks : nat) (ins : nat -> Inputs)
    (n : nat) : State :=
  match n with
  | O => power_up c
  | S n' => fst (tick c timeout_ticks (state_at c timeout_ticks ins n') (ins n'))
  end.

Definition output_at (c : t) (timeout_ticks : nat) (ins : nat -> Inputs)
    (n : nat) : Outputs :=
  snd (tick c timeout_ticks (state_at c timeout_ticks ins n) (ins n)).

(** *** The rest of the class *)

(** Whether an address lies in one of [io_regions] (origin, length). *)
Definition in_io_regions (a : Z) : bool :=
  existsb (fun r : Z * Z => (fst r <=? a) && (a <? fst r + snd r)) io_regions.

(** [mem_map[key]]; [None] is the [KeyError]. *)
Fixpoint mem_map_get (m : list (string * Z)) (key : string) : option Z :=
  match m with
  | [] => None
  | (k, a) :: rest => if String.eqb k key then Some a else mem_map_get rest key
  end.

(** The [gcc_flags] property. *)
Definition gcc_flags : string :=
  let flags := "-march=rv64imac "%string in
  let flags := (flags ++ "-mabi=lp64 ")%string in
  let flags := (flags ++ "-D__openpitonrv64__ ")%string in
  flags.

(** What a port of the instantiated core is bound to in [cpu_params]. *)
Module Channel.
Inductive t := AW | W | B | AR | R.
Definition name (ch : t) : string :=
  match ch with
  | AW => "aw" | W => "w" | B => "b" | AR => "ar" | R => "r"
  end.
Definition eqb (x y : t) : bool :=
  match x, y with
  | AW, AW | W, W | B, B | AR, AR | R, R => true
  | _, _ => false
  end.
End Channel.

Inductive Binding :=
| ClockSignal (cd : string)
| wait_timer_done
| Field (bus : Name.t) (ch : Channel.t) (field : string)
| Const (value : Z).

(** [self.cpu_params], in the order the keywords are written. *)
Definition cpu_params : list (string * Binding) :=
  let f := Field Name.mem_axi in
  [ ("i_sys_clk", ClockSignal "sys");
    ("i_sys_rst_n", wait_timer_done);
    ("i_core_ref_clk", ClockSignal "sys");
    ("i_io_clk", ClockSignal "sys");
    ("i_mc_clk", ClockSignal "sys");
    ("o_m_axi_awid", f Channel.AW "id");
    ("o_m_axi_awaddr", f Channel.AW "addr");
    ("o_m_axi_awlen", f Channel.AW "len");
    ("o_m_axi_awsize", f Channel.AW "size");
    ("o_m_axi_awburst", f Channel.AW "burst");
    ("o_m_axi_awlock", f Channel.AW "lock");
    ("o_m_axi_awcache", f Channel.AW "cache");
    ("o_m_axi_awprot", f Channel.AW "prot");
    ("o_m_axi_awqos", f Channel.AW "qos");
    ("o_m_axi_awvalid", f Channel.AW "valid");
    ("i_m_axi_awready", f Channel.AW "ready");
    ("o_m_axi_wid", f Channel.W "id");
    ("o_m_axi_wdata", f Channel.W "data");
    ("o_m_axi_wstrb", f Channel.W "strb");
    ("o_m_axi_wlast", f Channel.W "last");
    ("o_m_axi_wvalid", f Channel.W "valid");
    ("i_m_axi_wready", f Channel.W "ready");
    ("o_m_axi_arid", f Channel.AR "id");
    ("o_m_axi_araddr", f Channel.AR "addr");
    ("o_m_axi_arlen", f Channel.AR "len");
    ("o_m_axi_arsize", f Channel.AR "size");
    ("o_m_axi_arburst", f Channel.AR "burst");
    ("o_m_axi_arlock", f Channel.AR "lock");
    ("o_m_axi_arcache", f Channel.AR "cache");
    ("o_m_axi_arprot", f Channel.AR "prot");
    ("o_m_axi_arqos", f Channel.AR "qos");
    ("o_m_axi_arvalid", f Channel.AR "valid");
    ("i_m_axi_arready", f Channel.AR "ready");
    ("i_m_axi_rid", f Channel.R "id");
    ("i_m_axi_rdata", f Channel.R "data");
    ("i_m_axi_rresp", f Channel.R "resp");
    ("i_m_axi_rlast", f Channel.R "last");
    ("i_m_axi_rvalid", f Channel.R "valid");
    ("o_m_axi_rready", f Channel.R "ready");
    ("i_m_axi_bid", f Channel.B "id");
    ("i_m_axi_bresp", f Channel.B "resp");
    ("i_m_axi_bvalid", f Channel.B "valid");
    ("o_m_axi_bready", f Channel.B "ready");
    ("i_ddr_ready", Const 1);
    ("i_ext_irq", Const 0);
    ("i_ext_irq_trigger", Const 0) ]%string.

(** Who drives a field of an AXI channel: the master drives the payload and
    [valid] of the request channels and the [ready] of the response
    channels; the slave drives the rest. *)
Definition master_drives (ch : Channel.t) (field : string) : bool :=
  match ch with
  | Channel.AW | Channel.W | Channel.AR => negb (String.eqb field "ready")
  | Channel.B | Channel.R => String.eqb field "ready"
  end.

(** The name the generated core gives the port of a field: [o_] for what
    the core, the master, drives and [i_] for what it receives. *)
Definition port_name (ch : Channel.t) (field : string) : string :=
  ((if master_drives ch field then "o_" else "i_")
   ++ "m_axi_" ++ Channel.name ch ++ field)%string.

Definition Binding_eqb (x y : Binding) : bool :=
  match x, y with
  | ClockSignal a, ClockSignal b => String.eqb a b
  | wait_timer_done, wait_timer_done => true
  | Field n c f, Field n' c' f' =>
      Name.eqb n n' && Channel.eqb c c' && String.eqb f f'
  | Const a, Const b => a =? b
  | _, _ => false
  end.

(** [add_sources] works on the files of the working directory, with their
    contents, and on the platform's list of sources.  [commands] is the log
    of what was handed to [os.system]; [copy_delivers] is what the copy
    command would put into the working directory: the contents of the file
    to copy, or nothing when the command fails (no such file, no right to
    read or to write). *)
Record World := mkWorld
  { cwd : list (string * string);      (* file name, contents *)
    copy_delivers : option string;
    commands : list string;
    sources : list string }.           (* [platform.add_source] calls *)

Fixpoint read (files : list (string * string)) (f : string) : option string :=
  match files with
  | [] => None
  | (g, contents) :: rest => if String.eqb g f then Some contents else read rest f
  end.

Definition os_path_exists (w : World) (f : string) : bool :=
  match read (cwd w) f with Some _ => true | None => false end.

Definition cp_generated_v : string :=
  "cp ~/research/openpiton/build/generated.v ."%string.

(** [os.system(cmd)] for the one command the class runs: the command is
    logged; a copy that succeeds writes [generated.v], over a file of that
    name if there is one; the exit status is dropped, as the source drops
    it. *)
Definition os_system (w : World) (cmd : string) : World :=
  {| cwd := match copy_delivers w with
            | Some contents =>
                if String.eqb cmd cp_generated_v
                then ("generated.v"%string, contents) :: cwd w
                else cwd w
            | None => cwd w
            end;
     copy_delivers := copy_delivers w;
     commands := commands w ++ [cmd];
     sources := sources w |}.

(** [platform.add_source(f)], kept as the name it is called with. *)
Definition add_source (w : World) (f : string) : World :=
  {| cwd := cwd w;
     copy_delivers := copy_delivers w;
     commands := commands w;
     sources := sources w ++ [f] |}.

Definition add_sources (w : World) : World :=
  let w1 := if negb (os_path_exists w "generated.v")
            then os_system w cp_generated_v else w in
  add_source w1 "generated.sv".

End OpenPiton.

(** * Properties *)

Import axi.
Import OpenPiton.

(** ** Bit-level facts about the Migen primitives *)

Lemma slice_testbit (v lo hi k : Z) :
  0 <= lo -> 0 <= k < hi - lo ->
  Z.testbit (Migen.slice v lo hi) k = Z.testbit v (k + lo).
Proof.
  intros Hlo Hk. unfold Migen.slice.
  rewrite Z.mod_pow2_bits_low by lia.
  apply Z.shiftr_spec. lia.
Qed.

Lemma Replicate_testbit (w v : Z) (n : nat) (j : Z) :
  0 < w -> 0 <= j ->
  Z.testbit (Migen.Replicate w v n) j
  = (j <? w * Z.of_nat n) && Z.testbit v (j mod w).
Proof.
  intros Hw. revert j. induction n as [|n IH]; intros j Hj.
  - cbn [Migen.Replicate]. rewrite Z.bits_0.
    destruct (Z.ltb_spec j (w * Z.of_nat 0)); [ lia | reflexivity ].
  - cbn [Migen.Replicate]. unfold Migen.eq_ at 1.
    rewrite Z.lor_spec, Z.testbit_mod_pow2 by lia.
    destruct (Z.ltb_spec j w) as [Hlt|Hge].
    + rewrite Z.shiftl_spec_low by lia.
      rewrite Z.mod_small by lia.
      destruct (Z.ltb_spec j (w * Z.of_nat (S n))); [ | nia ].
      cbn. apply orb_false_r.
    + rewrite Z.shiftl_spec by lia. rewrite IH by lia.
      replace ((j - w) mod w) with (j mod w).
      2:{ replace j with ((j - w) + 1 * w) at 1 by lia.
          apply Z.mod_add. lia. }
      cbn [andb orb].
      destruct (Z.ltb_spec (j - w) (w * Z.of_nat n));
        destruct (Z.ltb_spec j (w * Z.of_nat (S n))); try reflexivity; nia.
Qed.

Lemma eq_slice_testbit (old lo hi rhs j : Z) :
  0 <= lo <= hi -> 0 <= j ->
  Z.testbit (Migen.eq_slice old lo hi rhs) j
  = if j <? lo then Z.testbit old j
    else if j <? hi then Z.testbit rhs (j - lo)
    else Z.testbit old j.
Proof.
  intros Hlh Hj. unfold Migen.eq_slice, Migen.eq_.
  rewrite !Z.lor_spec, Z.testbit_mod_pow2 by lia.
  rewrite !Z.shiftl_spec by lia.
  rewrite Z.testbit_mod_pow2 by lia.
  destruct (Z.ltb_spec j lo) as [H1|H1].
  - rewrite (Z.testbit_neg_r _ (j - hi)) by lia.
    rewrite (Z.testbit_neg_r rhs (j - lo)) by lia.
    cbn. rewrite andb_false_r, !orb_false_r. reflexivity.
  - destruct (Z.ltb_spec j hi) as [H2|H2].
    + rewrite (Z.testbit_neg_r _ (j - hi)) by lia.
      destruct (Z.ltb_spec (j - lo) (hi - lo)); [ | lia ].
      cbn. apply orb_false_r.
    + destruct (Z.ltb_spec (j - lo) (hi - lo)); [ lia | ].
      rewrite Z.shiftr_spec by lia.
      cbn. f_equal. lia.
Qed.

(** A value that fits [w] bits has no bit set from [w] up. *)
Lemma testbit_high (w v j : Z) :
  0 <= w -> 0 <= v < 2 ^ w -> w <= j -> Z.testbit v j = false.
Proof.
  intros Hw Hv Hj. rewrite <- (Z.mod_small v (2 ^ w)) by assumption.
  apply Z.mod_pow2_bits_high. lia.
Qed.

Lemma eq_small (w v : Z) : 0 <= v < 2 ^ w -> Migen.eq_ w v = v.
Proof. intros H. unfold Migen.eq_. apply Z.mod_small. assumption. Qed.

(** ** The constructor *)

(** [__init__] raises nothing and builds this object; [log2_int] gives 6 for
    the 64 bytes of a 512-bit word and 2 for the 4 bytes of a 32-bit one. *)
Lemma init_eq (v : string) :
  __init__ v =
  Some
    (let mem_axi := axi.mk Name.mem_axi 512 64 4 in
     let mem_wb := wishbone.mk Name.mem_wb 512 58 in
     let io_wb := wishbone.mk Name.io_wb 32 62 in
     let mem_axi_litex := axi.mk Name.mem_axi_litex 512 64 4 in
     let io_axi_litex := axi.mk Name.io_axi_litex 512 64 4 in
     let io_axi_down_conv := axi.mk Name.io_axi_down_conv 32 64 4 in
     {| variant := v;
        mem_axi := mem_axi;
        mem_wb := mem_wb;
        io_wb := io_wb;
        mem_axi_litex := mem_axi_litex;
        io_axi_litex := io_axi_litex;
        io_axi_down_conv := io_axi_down_conv;
        periph_buses := [mem_wb; io_wb];
        memory_buses := [];
        wait_timer := Migen.WaitTimer.init 5000;
        op2litex_decoder :=
          {| AXIDecoder.master := mem_axi;
             AXIDecoder.slaves :=
               [ (fun addr => negb (Migen.bit addr 25), mem_axi_litex);
                 (fun addr => Migen.bit addr 25, io_axi_litex) ];
             AXIDecoder.addr_shift := 6 |};
        mem_bus_a2w_ports := (mem_axi_litex, mem_wb);
        io_bus_a2w_ports := (io_axi_down_conv, io_wb);
        io_connect := (io_axi_litex, io_axi_down_conv) |}).
Proof. reflexivity. Qed.

(** The fields of the object, one equation each. *)
Lemma init_fields (v : string) (c : t) :
  __init__ v = Some c ->
  mem_axi c = axi.mk Name.mem_axi 512 64 4 /\
  mem_wb c = wishbone.mk Name.mem_wb 512 58 /\
  io_wb c = wishbone.mk Name.io_wb 32 62 /\
  mem_axi_litex c = axi.mk Name.mem_axi_litex 512 64 4 /\
  io_axi_litex c = axi.mk Name.io_axi_litex 512 64 4 /\
  io_axi_down_conv c = axi.mk Name.io_axi_down_conv 32 64 4 /\
  periph_buses c = [mem_wb c; io_wb c] /\
  memory_buses c = [] /\
  wait_timer c = Migen.WaitTimer.init 5000 /\
  op2litex_decoder c =
    {| AXIDecoder.master := mem_axi c;
       AXIDecoder.slaves :=
         [ (fun addr => negb (Migen.bit addr 25), mem_axi_litex c);
           (fun addr => Migen.bit addr 25, io_axi_litex c) ];
       AXIDecoder.addr_shift := 6 |} /\
  mem_bus_a2w_ports c = (mem_axi_litex c, mem_wb c) /\
  io_bus_a2w_ports c = (io_axi_down_conv c, io_wb c) /\
  io_connect c = (io_axi_litex c, io_axi_down_conv c).
Proof.
  rewrite init_eq. intros [= <-]. repeat split.
Qed.

Lemma init_total (v : string) : exists c, __init__ v = Some c.
Proof. rewrite init_eq. eexists. reflexivity. Qed.

(** Opens a goal [exists c, __init__ v = Some c /\ _] with the object and
    the equations of its fields. *)
Ltac with_object v c :=
  destruct (init_total v) as [c ?E];
  exists c; split; [ assumption | ];
  destruct (init_fields v c E)
    as (Hmem_axi & Hmem_wb & Hio_wb & Hmem_axi_litex & Hio_axi_litex
        & Hio_axi_down_conv & Hperiph & Hmemory & Htimer & Hdecoder
        & Hmem_ports & Hio_ports & Hio_connect).

(** ** Region decoder *)

(** The decoder hands its predicates the address without the 6 bits that
    select a byte of the bus word, so bit 25 there is bit 31 of the address
    on the channel. *)
Lemma word_addr_bit25 (v : string) (c : t) (addr : Z) :
  __init__ v = Some c ->
  Migen.bit (AXIDecoder.word_addr (op2litex_decoder c) addr) 25
  = Z.testbit addr 31.
Proof.
  intros E.
  destruct (init_fields v c E) as (Hm & _ & _ & _ & _ & _ & _ & _ & _ & Hd & _).
  unfold Migen.bit, AXIDecoder.word_addr.
  rewrite Hd. cbn [AXIDecoder.addr_shift AXIDecoder.master].
  rewrite Hm. cbn [axi.address_width].
  rewrite slice_testbit by lia. reflexivity.
Qed.

Lemma route_bit31 (v : string) (c : t) (addr : Z) :
  __init__ v = Some c ->
  AXIDecoder.route (op2litex_decoder c) addr
  = AXIDecoder.To
      (if Z.testbit addr 31 then io_axi_litex c else mem_axi_litex c).
Proof.
  intros E. pose proof (word_addr_bit25 v c addr E) as Hbit.
  destruct (init_fields v c E) as (_ & _ & _ & _ & _ & _ & _ & _ & _ & Hd & _).
  unfold AXIDecoder.route.
  rewrite Hd in Hbit |- *.
  cbn [AXIDecoder.slaves AXIDecoder.first_match].
  rewrite Hbit. destruct (Z.testbit addr 31); reflexivity.
Qed.

(** The shift matters: were the same table consulted with the byte address
    as it is, its predicates would look at bit 25, and 0x9000_0000 would go
    to the memory channel. *)
Remark table_on_byte_address (v : string) :
  exists c, __init__ v = Some c /\
    let d := op2litex_decoder c in
    let unshifted := {| AXIDecoder.master := AXIDecoder.master d;
                        AXIDecoder.slaves := AXIDecoder.slaves d;
                        AXIDecoder.addr_shift := 0 |} in
    AXIDecoder.route unshifted 0x90000000 = AXIDecoder.To (mem_axi_litex c).
Proof.
  with_object v c. rewrite Hdecoder, Hmem_axi. reflexivity.
Qed.

(** C1. Every address on the upstream channel is routed by its bit 31: to the
    memory channel when the bit is 0 and to the I/O channel when it is 1;
    0x1000_0000 goes to the memory channel and 0x9000_0000 to the I/O
    channel; the channel chosen is that of the first entry of the table, in
    list order, whose predicate holds. *)
Theorem C1_route_by_bit31 (v : string) :
  exists c, __init__ v = Some c /\
    let d := op2litex_decoder c in
    (forall addr,
       AXIDecoder.route d addr
       = AXIDecoder.To
           (if Z.testbit addr 31 then io_axi_litex c else mem_axi_litex c)) /\
    (forall addr,
       option_map snd
         (find (fun r : AXIDecoder.Region => fst r (AXIDecoder.word_addr d addr))
               (AXIDecoder.slaves d))
       = Some (if Z.testbit addr 31 then io_axi_litex c else mem_axi_litex c)) /\
    (forall st b,
       let bus := if Z.testbit (ax_addr b) 31
                  then io_axi_litex c else mem_axi_litex c in
       AXIDecoder.step d st (AXIDecoder.mkIn (Some b) None)
       = ((ax_id b, bus) :: st, Some (AXIDecoder.To bus))) /\
    AXIDecoder.route d 0x10000000 = AXIDecoder.To (mem_axi_litex c) /\
    AXIDecoder.route d 0x90000000 = AXIDecoder.To (io_axi_litex c) /\
    axi.name (mem_axi_litex c) = Name.mem_axi_litex /\
    axi.name (io_axi_litex c) = Name.io_axi_litex.
Proof.
  with_object v c. cbv zeta.
  split; [ intros addr; apply (route_bit31 v c addr E) | ].
  split.
  { intros addr. pose proof (word_addr_bit25 v c addr E) as Hbit.
    rewrite Hdecoder in Hbit |- *.
    cbn [AXIDecoder.slaves find fst snd].
    rewrite Hbit. destruct (Z.testbit addr 31); reflexivity. }
  split.
  { intros st b. unfold AXIDecoder.step.
    cbn [AXIDecoder.retired AXIDecoder.address_beat].
    rewrite (route_bit31 v c _ E). reflexivity. }
  rewrite !(route_bit31 v c _ E).
  rewrite Hmem_axi_litex, Hio_axi_litex. repeat split.
Qed.

(** C4. At every address exactly one predicate of the decoder's table holds,
    so the decoder always selects a channel and never reports
    [RoutingError]. *)
Theorem C4_exactly_one_region (v : string) :
  exists c, __init__ v = Some c /\
    forall addr,
      AXIDecoder.matches (op2litex_decoder c) addr = 1%nat /\
      (exists bus, AXIDecoder.route (op2litex_decoder c) addr = AXIDecoder.To bus) /\
      AXIDecoder.route (op2litex_decoder c) addr <> AXIDecoder.RoutingError.
Proof.
  with_object v c. intros addr.
  pose proof (word_addr_bit25 v c addr E) as Hbit.
  rewrite (route_bit31 v c addr E).
  split.
  - unfold AXIDecoder.matches. rewrite Hdecoder in Hbit |- *.
    cbn [AXIDecoder.slaves filter fst].
    rewrite Hbit. destruct (Z.testbit addr 31); reflexivity.
  - split; [ eexists; reflexivity | discriminate ].
Qed.

(** ** Widths of the channels *)

(** C7, as the code has it. No channel handed to the SoC is wider than the
    channel of the core: the I/O channel is narrower (32 bits against 512)
    and the memory channel is exactly as wide (512 bits). *)
Theorem C7_downstream_not_wider (v : string) :
  exists c, __init__ v = Some c /\
    Forall (fun b => wishbone.data_width b <= axi.data_width (mem_axi c))
           (periph_buses c) /\
    wishbone.data_width (io_wb c) < axi.data_width (mem_axi c) /\
    wishbone.data_width (mem_wb c) = axi.data_width (mem_axi c).
Proof.
  with_object v c. rewrite Hperiph, Hmem_wb, Hio_wb, Hmem_axi. cbn.
  repeat constructor; cbn; lia.
Qed.

(** C7 as stated fails: the memory channel is one of the channels handed to
    the SoC and it is not narrower than the channel of the core. *)
Lemma C7_counterexample :
  exists c, __init__ "standard" = Some c /\
    In (mem_wb c) (periph_buses c) /\
    wishbone.data_width (mem_wb c) = 512 /\
    axi.data_width (mem_axi c) = 512 /\
    ~ Forall (fun b => wishbone.data_width b < axi.data_width (mem_axi c))
             (periph_buses c).
Proof.
  eexists. split; [ reflexivity | ]. cbn.
  split; [ left; reflexivity | ].
  split; [ reflexivity | ]. split; [ reflexivity | ].
  intros H. inversion H as [ | b l Hb Hl ]; subst. cbn in Hb. lia.
Qed.

(** C10. The object hands the SoC exactly two buses, both peripheral buses:
    the memory region's 512-bit Wishbone interface and the I/O region's
    32-bit one; it has no memory bus; and every address ends, along the path
    from the decoder, on one of the two peripheral buses. *)
Theorem C10_two_peripheral_buses (v : string) :
  exists c, __init__ v = Some c /\
    periph_buses c = [mem_wb c; io_wb c] /\
    List.length (periph_buses c) = 2%nat /\
    mem_wb c = wishbone.mk Name.mem_wb 512 58 /\
    io_wb c = wishbone.mk Name.io_wb 32 62 /\
    memory_buses c = [] /\
    (forall addr,
       exists s w,
         AXIDecoder.route (op2litex_decoder c) addr = AXIDecoder.To s /\
         wishbone_of c s = Some w /\
         In w (periph_buses c) /\
         w = if Z.testbit addr 31 then io_wb c else mem_wb c).
Proof.
  with_object v c.
  split; [ assumption | ].
  split; [ rewrite Hperiph; reflexivity | ].
  split; [ assumption | ].
  split; [ assumption | ].
  split; [ assumption | ].
  intros addr. rewrite (route_bit31 v c addr E).
  exists (if Z.testbit addr 31 then io_axi_litex c else mem_axi_litex c).
  exists (if Z.testbit addr 31 then io_wb c else mem_wb c).
  split; [ reflexivity | ].
  unfold wishbone_of. rewrite Hmem_ports, Hio_ports, Hio_connect, Hperiph.
  cbn [fst snd].
  rewrite Hmem_axi_litex, Hio_axi_litex, Hio_axi_down_conv.
  destruct (Z.testbit addr 31); cbn;
    (split; [ reflexivity | split; [ tauto | reflexivity ] ]).
Qed.

(** ** The I/O region path *)

Lemma io_r_data_bits (v : string) (c : t) (down : RBeat) (j : Z) :
  __init__ v = Some c -> 0 <= r_data down < 2 ^ 32 -> 0 <= j ->
  Z.testbit (r_data (io_r c down)) j
  = (j <? 512) && Z.testbit (r_data down) (j mod 32).
Proof.
  intros E Hv Hj.
  destruct (init_fields v c E)
    as (_ & _ & _ & _ & Hup & Hdown & _).
  unfold io_r. cbn [r_data connect_r].
  rewrite Hup, Hdown. cbn [axi.data_width].
  change (Z.to_nat (512 / 32)) with 16%nat.
  rewrite eq_slice_testbit by lia.
  assert (Hbig : 0 <= r_data down < 2 ^ 512).
  { split; [ lia | ].
    apply Z.lt_le_trans with (2 ^ 32); [ lia | ].
    apply Z.pow_le_mono_r; lia. }
  rewrite (eq_small 512) by exact Hbig.
  destruct (Z.ltb_spec j 32) as [H32|H32].
  - rewrite Z.mod_small by lia.
    destruct (Z.ltb_spec j 512); [ reflexivity | lia ].
  - destruct (Z.ltb_spec j 512) as [H512|H512].
    + rewrite Replicate_testbit by lia.
      replace ((j - 32) mod 32) with (j mod 32).
      2:{ replace j with ((j - 32) + 1 * 32) at 1 by lia.
          apply Z.mod_add. lia. }
      destruct (Z.ltb_spec (j - 32) (32 * Z.of_nat 16)); [ reflexivity | lia ].
    + cbn [andb]. apply (testbit_high 32); lia.
Qed.

(** C2. On an I/O read every one of the 16 lanes, 32 bits each, of the
    response returned on the 512-bit channel holds the 32-bit value that came
    back on the narrow channel. *)
Theorem C2_replicated_lanes (v : string) (c : t) (down : RBeat) (k : Z) :
  __init__ v = Some c ->
  0 <= r_data down < 2 ^ 32 ->
  0 <= k < 512 / 32 ->
  lane 32 (r_data (io_r c down)) k = r_data down.
Proof.
  intros E Hv Hk. change (512 / 32) with 16 in Hk.
  apply Z.bits_inj'. intros j Hj. unfold lane.
  destruct (Z.ltb_spec j 32) as [H32|H32].
  - rewrite slice_testbit by lia.
    rewrite (io_r_data_bits v c down _ E Hv) by lia.
    destruct (Z.ltb_spec (j + 32 * k) 512); [ | lia ].
    cbn [andb]. f_equal.
    rewrite Z.mul_comm, Z.mod_add by lia. apply Z.mod_small. lia.
  - unfold Migen.slice.
    rewrite Z.mod_pow2_bits_high by lia.
    symmetry. apply (testbit_high 32); lia.
Qed.

Lemma C2_replicated_lanes_witness :
  exists c, __init__ "standard" = Some c /\
    lane 32 (r_data (io_r c (mkR 3 0xDEADBEEF 0 true))) 15 = 0xDEADBEEF.
Proof.
  eexists. split; [ reflexivity | ].
  apply (C2_replicated_lanes "standard" _ (mkR 3 0xDEADBEEF 0 true) 15).
  - reflexivity.
  - cbn. lia.
  - cbn. lia.
Defined.

(** On the narrow side of [connect] a write beat is the wide beat cut to the
    narrow widths. *)
Lemma io_w_eq (v : string) (c : t) (b : WBeat) :
  __init__ v = Some c ->
  io_w c b = {| w_id := w_id b mod 2 ^ 4;
                w_data := w_data b mod 2 ^ 32;
                w_strb := w_strb b mod 2 ^ 4;
                w_last := w_last b |}.
Proof.
  intros E.
  destruct (init_fields v c E) as (_ & _ & _ & _ & _ & Hdown & _).
  unfold io_w, connect_w, Migen.eq_. rewrite Hdown. reflexivity.
Qed.

Lemma io_ax_eq (v : string) (c : t) (b : AxBeat) :
  __init__ v = Some c ->
  connect_ax (io_axi_litex c) (io_axi_down_conv c) b
  = {| ax_id := ax_id b mod 2 ^ 4; ax_addr := ax_addr b mod 2 ^ 64;
       ax_len := ax_len b; ax_size := ax_size b; ax_burst := ax_burst b;
       ax_lock := ax_lock b; ax_cache := ax_cache b; ax_prot := ax_prot b;
       ax_qos := ax_qos b |}.
Proof.
  intros E.
  destruct (init_fields v c E) as (_ & _ & _ & _ & _ & Hdown & _).
  unfold connect_ax, Migen.eq_. rewrite Hdown. reflexivity.
Qed.

(** C3, as the code has it. The 512-bit I/O channel is wired field by field
    onto the 32-bit channel: each wide write beat gives exactly one narrow
    beat, which carries the low 32 data bits and the low 4 strobe bits of the
    wide beat and its [last]; the address of the address phase passes as it
    is.  Nothing of byte lanes 4 to 63 goes downstream. *)
Theorem C3_write_beats_cut (v : string) (c : t) (beats : list WBeat)
    (aw : AxBeat) :
  __init__ v = Some c ->
  List.length (io_w_stream c beats) = List.length beats /\
  Forall2 (fun wide narrow =>
             w_data narrow = w_data wide mod 2 ^ 32 /\
             w_strb narrow = w_strb wide mod 2 ^ (32 / 8) /\
             w_last narrow = w_last wide /\
             forall j, Z.testbit (w_strb narrow) j
                       = (j <? 4) && Z.testbit (w_strb wide) j)
          beats (io_w_stream c beats) /\
  ax_addr (io_aw c aw) = ax_addr aw mod 2 ^ 64 /\
  ax_len (io_aw c aw) = ax_len aw /\
  ax_size (io_aw c aw) = ax_size aw.
Proof.
  intros E. unfold io_w_stream, io_aw.
  split; [ apply length_map | ].
  split.
  - induction beats as [|b rest IH]; cbn [map]; constructor; [ | exact IH ].
    rewrite (io_w_eq v c b E). cbn [w_data w_strb w_last].
    repeat split. intros j. apply Z.testbit_mod_pow2. lia.
  - rewrite (io_ax_eq v c aw E). repeat split.
Qed.

Lemma C3_write_beats_cut_witness :
  exists c, __init__ "standard" = Some c /\
    let wide := mkW 0 (2 ^ 512 - 1) (2 ^ 64 - 1) true in
    let aw := mkAx 0 0x90000000 0 6 1 0 0 0 0 in
    List.length (io_w_stream c [wide]) = 1%nat /\
    Forall2 (fun wide narrow =>
               w_data narrow = w_data wide mod 2 ^ 32 /\
               w_strb narrow = w_strb wide mod 2 ^ (32 / 8) /\
               w_last narrow = w_last wide /\
               forall j, Z.testbit (w_strb narrow) j
                         = (j <? 4) && Z.testbit (w_strb wide) j)
            [wide] (io_w_stream c [wide]) /\
    ax_addr (io_aw c aw) = ax_addr aw mod 2 ^ 64 /\
    ax_len (io_aw c aw) = ax_len aw /\
    ax_size (io_aw c aw) = ax_size aw.
Proof.
  eexists. split; [ reflexivity | ].
  apply (C3_write_beats_cut "standard" _
           [mkW 0 (2 ^ 512 - 1) (2 ^ 64 - 1) true]
           (mkAx 0 0x90000000 0 6 1 0 0 0 0)).
  reflexivity.
Defined.

(** C3 as stated fails: one wide beat with all 64 strobes set gives one
    narrow beat, not 16, and of its 64 enabled bytes 4 are enabled on the
    narrow side. *)
Lemma C3_counterexample :
  exists c, __init__ "standard" = Some c /\
    let wide := mkW 0 (2 ^ 512 - 1) (2 ^ 64 - 1) true in
    io_w_stream c [wide] = [mkW 0 (2 ^ 32 - 1) (2 ^ 4 - 1) true] /\
    List.length (io_w_stream c [wide]) <> Z.to_nat (512 / 32) /\
    enabled_bytes (io_axi_litex c) [wide] = 64%nat /\
    enabled_bytes (io_axi_down_conv c) (io_w_stream c [wide]) = 4%nat.
Proof.
  eexists. split; [ reflexivity | ].
  cbv zeta. split; [ vm_compute; reflexivity | ].
  split; [ vm_compute; discriminate | ].
  split; vm_compute; reflexivity.
Qed.

(** C8. Across the width change of the I/O path the [id] of every beat and
    the [last] of every data beat are the ones of the other side, in both
    directions, and as many address beats leave as enter. *)
Theorem C8_id_and_last_kept (v : string) (c : t)
    (aws ars : list AxBeat) (ws : list WBeat)
    (bs : list BBeat) (rs : list RBeat) :
  __init__ v = Some c ->
  Forall (fun a => 0 <= ax_id a < 2 ^ 4) (aws ++ ars) ->
  Forall (fun w => 0 <= w_id w < 2 ^ 4) ws ->
  Forall (fun b => 0 <= b_id b < 2 ^ 4) bs ->
  Forall (fun r => 0 <= r_id r < 2 ^ 4) rs ->
  map ax_id (io_aw_stream c aws) = map ax_id aws /\
  map ax_id (io_ar_stream c ars) = map ax_id ars /\
  map w_id (io_w_stream c ws) = map w_id ws /\
  map w_last (io_w_stream c ws) = map w_last ws /\
  map b_id (io_b_stream c bs) = map b_id bs /\
  map r_id (io_r_stream c rs) = map r_id rs /\
  map r_last (io_r_stream c rs) = map r_last rs.
Proof.
  intros E Ha Hw Hb Hr.
  apply Forall_app in Ha. destruct Ha as [Haw Har].
  destruct (init_fields v c E) as (_ & _ & _ & _ & Hup & Hdown & _).
  unfold io_aw_stream, io_ar_stream, io_w_stream, io_b_stream, io_r_stream.
  rewrite !map_map.
  rewrite Forall_forall in Haw, Har, Hw, Hb, Hr.
  split; [ apply map_ext_in; intros x Hx; unfold io_aw;
           rewrite (io_ax_eq v c x E); cbn; apply Z.mod_small, Haw, Hx | ].
  split; [ apply map_ext_in; intros x Hx; unfold io_ar;
           rewrite (io_ax_eq v c x E); cbn; apply Z.mod_small, Har, Hx | ].
  split; [ apply map_ext_in; intros x Hx;
           rewrite (io_w_eq v c x E); cbn; apply Z.mod_small, Hw, Hx | ].
  split; [ apply map_ext_in; intros x Hx;
           rewrite (io_w_eq v c x E); reflexivity | ].
  split; [ apply map_ext_in; intros x Hx; unfold io_b, connect_b, Migen.eq_;
           rewrite Hup; cbn; apply Z.mod_small, Hb, Hx | ].
  split; [ apply map_ext_in; intros x Hx; unfold io_r, connect_r, Migen.eq_;
           rewrite Hup; cbn; apply Z.mod_small, Hr, Hx | ].
  apply map_ext_in; intros x Hx. reflexivity.
Qed.

Lemma C8_id_and_last_kept_witness :
  exists c, __init__ "standard" = Some c /\
    let aws := [mkAx 5 0x90000000 0 6 1 0 0 0 0] in
    let ars := [mkAx 9 0x90000004 0 6 1 0 0 0 0] in
    let ws := [mkW 5 (2 ^ 512 - 1) (2 ^ 64 - 1) true] in
    let bs := [mkB 5 0] in
    let rs := [mkR 9 0xDEADBEEF 0 true] in
    map ax_id (io_aw_stream c aws) = map ax_id aws /\
    map ax_id (io_ar_stream c ars) = map ax_id ars /\
    map w_id (io_w_stream c ws) = map w_id ws /\
    map w_last (io_w_stream c ws) = map w_last ws /\
    map b_id (io_b_stream c bs) = map b_id bs /\
    map r_id (io_r_stream c rs) = map r_id rs /\
    map r_last (io_r_stream c rs) = map r_last rs.
Proof.
  eexists. split; [ reflexivity | ].
  apply (C8_id_and_last_kept "standard" _
           [mkAx 5 0x90000000 0 6 1 0 0 0 0]
           [mkAx 9 0x90000004 0 6 1 0 0 0 0]
           [mkW 5 (2 ^ 512 - 1) (2 ^ 64 - 1) true]
           [mkB 5 0]
           [mkR 9 0xDEADBEEF 0 true]).
  - reflexivity.
  - repeat constructor; cbn; lia.
  - repeat constructor; cbn; lia.
  - repeat constructor; cbn; lia.
  - repeat constructor; cbn; lia.
Defined.

(** ** Reset and bounded waits of the converters *)

Section Converter.
Import AXI2Wishbone.

Variable timeout_ticks : nat.


(** A converter that holds no transaction with the id [k] and is offered
    none completes none, and holds none afterwards. *)
Lemma step_r_foreign (k : Z) (st : State) (ri : bool * In) :
  holds k st = false ->
  offers k ri = false ->
  holds k (fst (step_r timeout_ticks st ri)) = false /\
  completes k (snd (step_r timeout_ticks st ri)) = false.
Proof.
  intros Hst Hoff. destruct ri as [r i].
  unfold step_r, ResetInserter. cbn [fst snd].
  destruct r; [ split; reflexivity | ].
  unfold offers in Hoff. cbn [snd] in Hoff.
  destruct st as [ | t | t | t w | t ]; cbn [step].
  - destruct (address_beat i) as [[kd h]|]; cbn; [ | split; reflexivity ].
    split; [ exact Hoff | reflexivity ].
  - destruct (kind t); [ split; [ exact Hst | reflexivity ] | ].
    destruct (data_beat i); split; try exact Hst; reflexivity.
  - destruct (kind t); [ split; [ exact Hst | reflexivity ] | ].
    destruct (has_last t); [ split; [ exact Hst | reflexivity ] | ].
    destruct (data_beat i); split; try exact Hst; reflexivity.
  - destruct (ack i).
    + split; [ exact Hst | exact Hst ].
    + destruct (timeout_ticks <=? S w)%nat;
        split; try exact Hst; reflexivity.
  - split; reflexivity.
Qed.

Lemma run_cons (st : State) (ri : bool * In) (rest : list (bool * In)) :
  run timeout_ticks st (ri :: rest)
  = (fst (run timeout_ticks (fst (step_r timeout_ticks st ri)) rest),
     snd (step_r timeout_ticks st ri)
     :: snd (run timeout_ticks (fst (step_r timeout_ticks st ri)) rest)).
Proof.
  cbn [run]. destruct (step_r timeout_ticks st ri) as [st' o].
  cbn [fst snd]. destruct (run timeout_ticks st' rest). reflexivity.
Qed.


Lemma run_foreign (k : Z) (ins : list (bool * In)) :
  forall st,
    holds k st = false ->
    forallb (fun ri => negb (offers k ri)) ins = true ->
    existsb (completes k) (snd (run timeout_ticks st ins)) = false.
Proof.
  induction ins as [|ri rest IH]; intros st Hst Hoff; [ reflexivity | ].
  cbn [forallb] in Hoff. apply andb_true_iff in Hoff.
  destruct Hoff as [Hri Hrest]. apply negb_true_iff in Hri.
  destruct (step_r_foreign k st ri Hst Hri) as [Hst' Ho].
  rewrite run_cons. cbn [snd existsb].
  rewrite Ho, (IH _ Hst' Hrest). reflexivity.
Qed.




End Converter.

(** What a cycle of the wrapper does to a converter is a step of the
    converter behind its reset input. *)
Lemma mem_next (c : t) (T : nat) (ins : nat -> Inputs) (j : nat) :
  mem_bus_a2w (state_at c T ins (S j))
  = fst (AXI2Wishbone.step_r T (mem_bus_a2w (state_at c T ins j))
           (stage_reset (ins j), mem_in (ins j))).
Proof. reflexivity. Qed.

Lemma io_next (c : t) (T : nat) (ins : nat -> Inputs) (j : nat) :
  io_bus_a2w (state_at c T ins (S j))
  = fst (AXI2Wishbone.step_r T (io_bus_a2w (state_at c T ins j))
           (stage_reset (ins j), io_in (ins j))).
Proof. reflexivity. Qed.

Lemma mem_emits (c : t) (T : nat) (ins : nat -> Inputs) (j : nat) :
  mem_out (output_at c T ins j)
  = snd (AXI2Wishbone.step_r T (mem_bus_a2w (state_at c T ins j))
           (stage_reset (ins j), mem_in (ins j))).
Proof. reflexivity. Qed.

Lemma io_emits (c : t) (T : nat) (ins : nat -> Inputs) (j : nat) :
  io_out (output_at c T ins j)
  = snd (AXI2Wishbone.step_r T (io_bus_a2w (state_at c T ins j))
           (stage_reset (ins j), io_in (ins j))).
Proof. reflexivity. Qed.

Lemma step_r_reset (T : nat) (st : AXI2Wishbone.State)
    (i : AXI2Wishbone.In) :
  AXI2Wishbone.step_r T st (true, i)
  = (AXI2Wishbone.IDLE, AXI2Wishbone.quiet).
Proof. reflexivity. Qed.

(** After a cycle with a reset high, a converter holds no transaction with
    the id [k] for as long as no address beat with that id is offered. *)
Lemma foreign_after_reset (c : t) (T : nat) (ins : nat -> Inputs)
    (m : nat) (k : Z) :
  stage_reset (ins m) = true ->
  forall n,
    (forall j, (m < j <= m + n)%nat ->
       AXI2Wishbone.offers k (stage_reset (ins j), mem_in (ins j)) = false /\
       AXI2Wishbone.offers k (stage_reset (ins j), io_in (ins j)) = false) ->
    AXI2Wishbone.holds k (mem_bus_a2w (state_at c T ins (S m + n))) = false /\
    AXI2Wishbone.holds k (io_bus_a2w (state_at c T ins (S m + n))) = false.
Proof.
  intros Hr. induction n as [|n IH]; intros Hoff.
  - rewrite Nat.add_0_r, mem_next, io_next, Hr, !step_r_reset.
    split; reflexivity.
  - replace (S m + S n)%nat with (S (S m + n)) by lia.
    destruct IH as [IHm IHi]; [ intros j Hj; apply Hoff; lia | ].
    destruct (Hoff (S m + n)%nat ltac:(lia)) as [Hom Hoi].
    rewrite mem_next, io_next. split.
    + apply (step_r_foreign T k _ _ IHm Hom).
    + apply (step_r_foreign T k _ _ IHi Hoi).
Qed.

(** C5. A clock cycle [m] with the global reset or the CPU's own reset high
    leaves the decoder and both converters of the wrapper idle and lets none
    of them emit anything in that cycle.  From then on neither converter
    emits a completion for an id [k], in any later cycle [m + n], unless an
    address beat with that id has been offered again in between: a
    transaction in flight at the reset is never completed.  When both resets
    are low in the next cycle, an address beat offered in it is accepted.
    (The converters are the ones of section 4.3.) *)
Theorem C5_reset_abandons (c : t) (T : nat) (ins : nat -> Inputs)
    (m n : nat) (k : Z) (kind : AXI2Wishbone.Kind) (h : AxBeat)
    (d : option WBeat) (a : option Z) :
  ResetSignal (ins m) = true \/ reset (ins m) = true ->
  (forall j, (m < j <= m + n)%nat ->
     AXI2Wishbone.offers k (stage_reset (ins j), mem_in (ins j)) = false /\
     AXI2Wishbone.offers k (stage_reset (ins j), io_in (ins j)) = false) ->
  (decoder_st (state_at c T ins (S m)) = AXIDecoder.IDLE /\
   mem_bus_a2w (state_at c T ins (S m)) = AXI2Wishbone.IDLE /\
   io_bus_a2w (state_at c T ins (S m)) = AXI2Wishbone.IDLE) /\
  (decoder_out (output_at c T ins m) = None /\
   mem_out (output_at c T ins m) = AXI2Wishbone.quiet /\
   io_out (output_at c T ins m) = AXI2Wishbone.quiet) /\
  (AXI2Wishbone.completes k (mem_out (output_at c T ins (m + n))) = false /\
   AXI2Wishbone.completes k (io_out (output_at c T ins (m + n))) = false) /\
  (ResetSignal (ins (S m)) = false ->
   reset (ins (S m)) = false ->
   (mem_in (ins (S m)) = AXI2Wishbone.mkIn (Some (kind, h)) d a ->
    mem_bus_a2w (state_at c T ins (S (S m)))
    = AXI2Wishbone.ADDR_ACCEPTED (AXI2Wishbone.mkTxn kind h [])) /\
   (io_in (ins (S m)) = AXI2Wishbone.mkIn (Some (kind, h)) d a ->
    io_bus_a2w (state_at c T ins (S (S m)))
    = AXI2Wishbone.ADDR_ACCEPTED (AXI2Wishbone.mkTxn kind h []))).
Proof.
  intros Hrst Hoff.
  assert (Hr : stage_reset (ins m) = true).
  { unfold stage_reset. destruct Hrst as [-> | ->];
      [ reflexivity | apply orb_true_r ]. }
  assert (Hidle :
    decoder_st (state_at c T ins (S m)) = AXIDecoder.IDLE /\
    mem_bus_a2w (state_at c T ins (S m)) = AXI2Wishbone.IDLE /\
    io_bus_a2w (state_at c T ins (S m)) = AXI2Wishbone.IDLE).
  { rewrite mem_next, io_next, Hr, !step_r_reset.
    cbn [state_at]. unfold tick, ResetInserter. cbn [fst decoder_st].
    rewrite Hr. repeat split. }
  split; [ exact Hidle | ].
  split.
  { rewrite mem_emits, io_emits, Hr, !step_r_reset.
    unfold output_at, tick, ResetInserter. cbn [snd decoder_out].
    rewrite Hr. repeat split. }
  split.
  { rewrite mem_emits, io_emits.
    destruct n as [|n].
    - rewrite Nat.add_0_r, Hr, !step_r_reset. split; reflexivity.
    - replace (m + S n)%nat with (S m + n)%nat by lia.
      destruct (foreign_after_reset c T ins m k Hr n) as [Hhm Hhi];
        [ intros j Hj; apply Hoff; lia | ].
      destruct (Hoff (S m + n)%nat ltac:(lia)) as [Hom Hoi].
      split.
      + apply (step_r_foreign T k _ _ Hhm Hom).
      + apply (step_r_foreign T k _ _ Hhi Hoi). }
  intros Hg Hl.
  assert (Hr' : stage_reset (ins (S m)) = false).
  { unfold stage_reset. rewrite Hg, Hl. reflexivity. }
  destruct Hidle as (_ & Hmi & Hii).
  split; intros Hin.
  - rewrite mem_next, Hmi, Hr', Hin. reflexivity.
  - rewrite io_next, Hii, Hr', Hin. reflexivity.
Qed.

Lemma C5_reset_abandons_witness :
  exists c, __init__ "standard" = Some c /\
    let read7 := mkAx 7 0x90000000 0 2 1 0 0 0 0 in
    let write8 := mkAx 8 0x90000004 0 2 1 0 0 0 0 in
    let cycle := fun (r : bool) (i : AXI2Wishbone.In) =>
      {| ResetSignal := false; reset := r;
         decoder_in := AXIDecoder.mkIn None None;
         mem_in := AXI2Wishbone.silent; io_in := i |} in
    let ins := fun j : nat =>
      match j with
      | 0%nat => cycle false
                   (AXI2Wishbone.mkIn (Some (AXI2Wishbone.Read, read7))
                      None None)
      | 3%nat => cycle true (AXI2Wishbone.mkIn None None (Some 0xDEADBEEF))
      | 4%nat => cycle false
                   (AXI2Wishbone.mkIn (Some (AXI2Wishbone.Write, write8))
                      None None)
      | _ => cycle false AXI2Wishbone.silent
      end in
    io_bus_a2w (state_at c 3 ins 3)
    = AXI2Wishbone.RESP_PENDING
        (AXI2Wishbone.mkTxn AXI2Wishbone.Read read7 []) 0 /\
    io_bus_a2w (state_at c 3 ins 4) = AXI2Wishbone.IDLE /\
    io_out (output_at c 3 ins 3) = AXI2Wishbone.quiet /\
    AXI2Wishbone.completes 7 (io_out (output_at c 3 ins (3 + 2))) = false /\
    io_bus_a2w (state_at c 3 ins 5)
    = AXI2Wishbone.ADDR_ACCEPTED
        (AXI2Wishbone.mkTxn AXI2Wishbone.Write write8 []).
Proof.
  eexists. split; [ reflexivity | ]. cbv zeta.
  split; [ reflexivity | ].
  match goal with
  | |- io_bus_a2w (state_at ?c 3 ?ins 4) = _ /\ _ =>
      assert (Hoff : forall j, (3 < j <= 3 + 2)%nat ->
                AXI2Wishbone.offers 7
                  (stage_reset (ins j), mem_in (ins j)) = false /\
                AXI2Wishbone.offers 7
                  (stage_reset (ins j), io_in (ins j)) = false);
      [ intros j Hj;
        destruct j as [|[|[|[|[|[|j]]]]]];
        try (exfalso; lia); split; reflexivity
      | pose proof (C5_reset_abandons c 3 ins 3 2 7 AXI2Wishbone.Write
                      (mkAx 8 0x90000004 0 2 1 0 0 0 0) None None
                      (or_intror eq_refl) Hoff)
          as ((_ & _ & Hidle) & (_ & _ & Hquiet) & (_ & Hnever) & Hacc) ]
  end.
  split; [ exact Hidle | ].
  split; [ exact Hquiet | ].
  split; [ exact Hnever | ].
  exact (proj2 (Hacc eq_refl eq_refl) eq_refl).
Defined.



(** * Further properties of the wrapper *)

(** ** Widths and indices *)

Lemma bit_length_nonneg (m : Z) : 0 <= Migen.bit_length m.
Proof.
  unfold Migen.bit_length. destruct (m =? 0); [ lia | ].
  pose proof (Z.log2_nonneg (Z.abs m)). lia.
Qed.

Lemma bit_length_pred_pow2 (k : Z) :
  0 <= k -> Migen.bit_length (2 ^ k - 1) = k.
Proof.
  intros Hk. unfold Migen.bit_length.
  destruct (Z.eqb_spec (2 ^ k - 1) 0) as [H0|H0].
  - destruct (Z.eq_dec k 0) as [->|Hk0]; [ reflexivity | ].
    assert (2 ^ 1 <= 2 ^ k) by (apply Z.pow_le_mono_r; lia).
    change (2 ^ 1) with 2 in *. lia.
  - assert (0 < k).
    { destruct (Z.eq_dec k 0) as [->|]; [ | lia ]. cbn in H0. lia. }
    assert (0 < 2 ^ k) by (apply Z.pow_pos_nonneg; lia).
    rewrite Z.abs_eq by lia.
    replace (2 ^ k - 1) with (Z.pred (2 ^ k)) by lia.
    rewrite Z.log2_pred_pow2 by lia. lia.
Qed.

Lemma log2_int_pow2 (k : Z) :
  0 <= k -> Migen.log2_int (2 ^ k) true = Some k.
Proof.
  intros Hk. unfold Migen.log2_int.
  assert (0 < 2 ^ k) by (apply Z.pow_pos_nonneg; lia).
  destruct (Z.eqb_spec (2 ^ k) 0); [ lia | ].
  cbv zeta. rewrite bit_length_pred_pow2 by exact Hk.
  rewrite Z.shiftl_1_l, Z.eqb_refl. reflexivity.
Qed.

(** X1. [log2_int] with the power-of-two check returns a number exactly for
    0, where it returns 0, and for the powers of two, where it returns the
    exponent; on every other number it raises. *)
Theorem X1_log2_int_powers_of_two (n k : Z) :
  Migen.log2_int n true = Some k
  <-> (n = 0 /\ k = 0) \/ (0 <= k /\ n = 2 ^ k).
Proof.
  unfold Migen.log2_int.
  destruct (Z.eqb_spec n 0) as [->|Hn].
  - split.
    + intros [= <-]. left. split; reflexivity.
    + intros [[_ ->]|[Hk H2]]; [ reflexivity | ].
      assert (0 < 2 ^ k) by (apply Z.pow_pos_nonneg; lia). lia.
  - cbv zeta. cbn [andb].
    pose proof (bit_length_nonneg (n - 1)) as Hr.
    rewrite Z.shiftl_1_l.
    split.
    + destruct (Z.eqb_spec (2 ^ Migen.bit_length (n - 1)) n) as [E|E];
        cbn [negb]; [ | discriminate ].
      intros [= <-]. right. split; [ exact Hr | symmetry; exact E ].
    + intros [[H _]|[Hk ->]]; [ contradiction | ].
      rewrite bit_length_pred_pow2 by exact Hk.
      rewrite Z.eqb_refl. reflexivity.
Qed.

(** X2. For a bus of [2^k] bytes, [k] up to 31, the decoder can be built,
    and the index [31 - log2_int(data_width//8)] that the wrapper writes in
    its predicates selects, in the address the decoder hands them, bit 31 of
    the byte address. *)
Theorem X2_index_selects_bit31 (k addr : Z) (n : Name.t) (idw : Z)
    (slaves : list AXIDecoder.Region) :
  0 <= k <= 31 ->
  exists d,
    AXIDecoder.new (axi.mk n (8 * 2 ^ k) 64 idw) slaves = Some d /\
    Migen.log2_int (8 * 2 ^ k / 8) true = Some (AXIDecoder.addr_shift d) /\
    Migen.bit (AXIDecoder.word_addr d addr) (31 - AXIDecoder.addr_shift d)
    = Z.testbit addr 31.
Proof.
  intros Hk.
  assert (Hlog : Migen.log2_int (8 * 2 ^ k / 8) true = Some k).
  { rewrite Z.mul_comm, Z.div_mul by lia.
    apply log2_int_pow2. lia. }
  unfold AXIDecoder.new. cbn [axi.data_width]. rewrite Hlog. cbn [bind].
  eexists. split; [ reflexivity | ].
  cbn [AXIDecoder.addr_shift]. split; [ reflexivity | ].
  unfold Migen.bit, AXIDecoder.word_addr.
  cbn [AXIDecoder.addr_shift AXIDecoder.master axi.address_width].
  rewrite slice_testbit by lia. f_equal. lia.
Qed.

Lemma X2_index_selects_bit31_witness :
  exists d,
    AXIDecoder.new (axi.mk Name.mem_axi (8 * 2 ^ 6) 64 4) [] = Some d /\
    Migen.log2_int (8 * 2 ^ 6 / 8) true = Some (AXIDecoder.addr_shift d) /\
    Migen.bit (AXIDecoder.word_addr d 0x90000000) (31 - AXIDecoder.addr_shift d)
    = Z.testbit 0x90000000 31.
Proof.
  apply (X2_index_selects_bit31 6 0x90000000 Name.mem_axi 4 []). lia.
Defined.

(** ** Regions *)

Lemma testbit31_below_4G (a : Z) :
  0 <= a < 2 ^ 32 -> Z.testbit a 31 = (2 ^ 31 <=? a).
Proof.
  intros Ha. rewrite Z.testbit_odd, Z.shiftr_div_pow2 by lia.
  destruct (Z.leb_spec (2 ^ 31) a) as [Hge|Hlt].
  - replace (a / 2 ^ 31) with 1; [ reflexivity | ].
    apply Z.div_unique with (a - 2 ^ 31); lia.
  - rewrite Z.div_small by lia. reflexivity.
Qed.

Lemma in_io_regions_eq (a : Z) :
  in_io_regions a = (2 ^ 31 <=? a) && (a <? 2 ^ 32).
Proof.
  unfold in_io_regions, io_regions. cbn [existsb fst snd].
  rewrite orb_false_r. reflexivity.
Qed.

(** X3. Below 4 GiB the decoder and [io_regions] agree: an address goes to
    the I/O channel exactly when it lies in an I/O region.  So the [csr]
    base of [mem_map] lies in an I/O region and goes to the I/O channel, and
    [main_ram] and the reset address go to the memory channel. *)
Theorem X3_io_regions_match_decoder (v : string) (c : t) (a : Z) :
  __init__ v = Some c ->
  0 <= a < 2 ^ 32 ->
  AXIDecoder.route (op2litex_decoder c) a
  = AXIDecoder.To
      (if in_io_regions a then io_axi_litex c else mem_axi_litex c) /\
  (exists csr, mem_map_get mem_map "csr" = Some csr /\
     in_io_regions csr = true /\
     AXIDecoder.route (op2litex_decoder c) csr
     = AXIDecoder.To (io_axi_litex c)) /\
  (exists ram, mem_map_get mem_map "main_ram" = Some ram /\
     in_io_regions ram = false /\
     AXIDecoder.route (op2litex_decoder c) ram
     = AXIDecoder.To (mem_axi_litex c)) /\
  AXIDecoder.route (op2litex_decoder c) reset_address
  = AXIDecoder.To (mem_axi_litex c) /\
  mem_map_get mem_map "rom" = None.
Proof.
  intros E Ha.
  split.
  { rewrite (route_bit31 v c a E), in_io_regions_eq, testbit31_below_4G
      by exact Ha.
    destruct (Z.ltb_spec a (2 ^ 32)); [ | lia ].
    rewrite andb_true_r. reflexivity. }
  split.
  { eexists. split; [ reflexivity | ].
    split; [ reflexivity | ]. rewrite (route_bit31 v c _ E). reflexivity. }
  split.
  { eexists. split; [ reflexivity | ].
    split; [ reflexivity | ]. rewrite (route_bit31 v c _ E). reflexivity. }
  split; [ rewrite (route_bit31 v c _ E); reflexivity | reflexivity ].
Qed.

Lemma X3_io_regions_match_decoder_witness :
  exists c, __init__ "standard" = Some c /\
    AXIDecoder.route (op2litex_decoder c) 0x7FFFFFFF
    = AXIDecoder.To
        (if in_io_regions 0x7FFFFFFF then io_axi_litex c else mem_axi_litex c).
Proof.
  eexists. split; [ reflexivity | ].
  refine (proj1 (X3_io_regions_match_decoder "standard" _ 0x7FFFFFFF _ _));
    [ reflexivity | cbn; lia ].
Defined.

(** X4. The decoder looks at bit 31 alone: an address and the address 4 GiB
    (or any multiple of it) further on go to the same channel.  Above 4 GiB
    the decoder therefore sends addresses to the I/O channel that lie in no
    I/O region, 0x1_8000_0000 for one. *)
Theorem X4_routing_repeats_every_4G (v : string) (c : t) (a n : Z) :
  __init__ v = Some c ->
  AXIDecoder.route (op2litex_decoder c) (a + n * 2 ^ 32)
  = AXIDecoder.route (op2litex_decoder c) a /\
  in_io_regions 0x180000000 = false /\
  AXIDecoder.route (op2litex_decoder c) 0x180000000
  = AXIDecoder.To (io_axi_litex c).
Proof.
  intros E. rewrite !(route_bit31 v c _ E).
  split; [ | split; reflexivity ].
  f_equal.
  rewrite <- (Z.mod_pow2_bits_low (a + n * 2 ^ 32) 32 31) by lia.
  rewrite <- (Z.mod_pow2_bits_low a 32 31) by lia.
  rewrite Z.mod_add by lia. reflexivity.
Qed.

Lemma X4_routing_repeats_every_4G_witness :
  exists c, __init__ "standard" = Some c /\
    AXIDecoder.route (op2litex_decoder c) (0x80000000 + 1 * 2 ^ 32)
    = AXIDecoder.route (op2litex_decoder c) 0x80000000.
Proof.
  eexists. split; [ reflexivity | ].
  refine (proj1 (X4_routing_repeats_every_4G "standard" _ 0x80000000 1 _)).
  reflexivity.
Defined.

(** ** The wait timer *)

Lemma bits_for_fits (t : Z) :
  0 <= t ->
  exists w, Migen.bits_for t = Some w /\ 0 < w /\ t < 2 ^ w /\
            (0 < t -> 2 ^ (w - 1) <= t).
Proof.
  intros Ht. unfold Migen.bits_for.
  destruct (Z.ltb_spec 0 t) as [Hpos|H0].
  - unfold Migen.log2_int.
    destruct (Z.eqb_spec (t + 1) 0); [ lia | ].
    cbv zeta. cbn [andb]. replace (t + 1 - 1) with t by lia.
    unfold Migen.bit_length. destruct (Z.eqb_spec t 0); [ lia | ].
    rewrite Z.abs_eq by lia.
    pose proof (Z.log2_spec t Hpos) as [Hlo Hhi].
    pose proof (Z.log2_nonneg t).
    eexists. split; [ reflexivity | ].
    replace (Z.log2 t + 1 - 1) with (Z.log2 t) by lia.
    replace (Z.log2 t + 1) with (Z.succ (Z.log2 t)) by lia.
    repeat split; try assumption; lia.
  - assert (t = 0) as -> by lia. exists 1.
    repeat split; try reflexivity; lia.
Qed.

Lemma timer_next_count (wt : Migen.WaitTimer.t) (t : Z) :
  0 <= t ->
  Migen.WaitTimer.t_ wt = t ->
  0 <= Migen.WaitTimer.count wt <= t ->
  Migen.WaitTimer.next wt true
  = {| Migen.WaitTimer.t_ := t;
       Migen.WaitTimer.count := Z.max 0 (Migen.WaitTimer.count wt - 1) |}.
Proof.
  intros Ht Et Hc. destruct wt as [t0 cnt]. cbn in Et, Hc. subst t0.
  unfold Migen.WaitTimer.next, Migen.WaitTimer.done, Migen.WaitTimer.width.
  cbn [Migen.WaitTimer.count Migen.WaitTimer.t_].
  destruct (Z.eqb_spec cnt 0) as [->|Hnz]; cbn [negb]; [ reflexivity | ].
  destruct (bits_for_fits t Ht) as (w & -> & Hw & Hfit & _).
  f_equal. unfold Migen.eq_. rewrite Z.mod_small; lia.
Qed.

(** X5. A [WaitTimer(t)] whose [wait] is held high has [t - n] left after [n]
    clock edges and then stays at 0, so [done] is low for exactly the first
    [t] cycles: the counter is wide enough for [t] and never wraps.  An edge
    with [wait] low reloads it with [t]. *)
Theorem X5_wait_timer_counts_t (t : Z) (n : nat) (wt0 : Migen.WaitTimer.t) :
  0 <= t ->
  Migen.WaitTimer.t_ wt0 = t ->
  let wt := Nat.iter n (fun w => Migen.WaitTimer.next w true)
              (Migen.WaitTimer.init t) in
  Migen.WaitTimer.count wt = Z.max 0 (t - Z.of_nat n) /\
  Migen.WaitTimer.done wt = (t <=? Z.of_nat n) /\
  Migen.WaitTimer.next wt0 false = Migen.WaitTimer.init t /\
  (exists w, Migen.bits_for t = Some w /\ t < 2 ^ w).
Proof.
  intros Ht E0. cbv zeta.
  assert (H : Nat.iter n (fun w => Migen.WaitTimer.next w true)
                (Migen.WaitTimer.init t)
              = {| Migen.WaitTimer.t_ := t;
                   Migen.WaitTimer.count := Z.max 0 (t - Z.of_nat n) |}).
  { induction n as [|n IH].
    - unfold Migen.WaitTimer.init. cbn [Nat.iter nat_rect]. f_equal. lia.
    - rewrite Nat.iter_succ, IH.
      rewrite (timer_next_count _ t Ht) by (cbn; lia).
      cbn [Migen.WaitTimer.count]. f_equal. lia. }
  rewrite H. cbn [Migen.WaitTimer.count].
  split; [ reflexivity | ].
  split.
  { unfold Migen.WaitTimer.done. cbn [Migen.WaitTimer.count].
    destruct (Z.eqb_spec (Z.max 0 (t - Z.of_nat n)) 0);
      destruct (Z.leb_spec t (Z.of_nat n)); try reflexivity; lia. }
  split.
  { unfold Migen.WaitTimer.next, Migen.WaitTimer.init. rewrite E0.
    reflexivity. }
  destruct (bits_for_fits t Ht) as (w & Hw & _ & Hfit & _).
  exists w. split; assumption.
Qed.

Lemma X5_wait_timer_counts_t_witness :
  let wt := Nat.iter 3 (fun w => Migen.WaitTimer.next w true)
              (Migen.WaitTimer.init 3) in
  Migen.WaitTimer.count wt = Z.max 0 (3 - Z.of_nat 3) /\
  Migen.WaitTimer.done wt = (3 <=? Z.of_nat 3) /\
  Migen.WaitTimer.next (Migen.WaitTimer.mk 3 1) false = Migen.WaitTimer.init 3 /\
  (exists w, Migen.bits_for 3 = Some w /\ 3 < 2 ^ w).
Proof.
  apply (X5_wait_timer_counts_t 3 3 (Migen.WaitTimer.mk 3 1));
    [ lia | reflexivity ].
Defined.

(** X6. Whatever the resets and the traffic do, the wrapper's timer stays a
    5000-tick timer with its counter between 0 and 5000: the counter never
    wraps. *)
Theorem X6_timer_in_range (v : string) (c : t) (T : nat)
    (ins : nat -> Inputs) (n : nat) :
  __init__ v = Some c ->
  Migen.WaitTimer.t_ (timer (state_at c T ins n)) = 5000 /\
  0 <= Migen.WaitTimer.count (timer (state_at c T ins n)) <= 5000.
Proof.
  intros E.
  destruct (init_fields v c E)
    as (_ & _ & _ & _ & _ & _ & _ & _ & Htimer & _).
  induction n as [|n [IHt IHc]].
  - cbn [state_at power_up timer]. rewrite Htimer. cbn. lia.
  - cbn [state_at]. unfold tick at 1 2 3. cbn [fst timer].
    unfold Migen.sync. destruct (ResetSignal (ins n)).
    + rewrite Htimer. cbn. lia.
    + rewrite (timer_next_count _ 5000) by (assumption || lia).
      cbn [Migen.WaitTimer.t_ Migen.WaitTimer.count]. lia.
Qed.

Lemma X6_timer_in_range_witness :
  exists c, __init__ "standard" = Some c /\
    let ins := fun n : nat =>
      {| ResetSignal := Nat.eqb n 2; reset := false;
         decoder_in := AXIDecoder.mkIn None None;
         mem_in := AXI2Wishbone.silent; io_in := AXI2Wishbone.silent |} in
    Migen.WaitTimer.t_ (timer (state_at c 1 ins 4)) = 5000 /\
    0 <= Migen.WaitTimer.count (timer (state_at c 1 ins 4)) <= 5000.
Proof.
  eexists. split; [ reflexivity | ].
  apply (X6_timer_in_range "standard"). reflexivity.
Defined.

Lemma timer_after_sys_reset (v : string) (c : t) (T : nat)
    (ins : nat -> Inputs) (m n : nat) :
  __init__ v = Some c ->
  ResetSignal (ins m) = true ->
  (forall j, (m < j <= m + n)%nat -> ResetSignal (ins j) = false) ->
  timer (state_at c T ins (S m + n))
  = {| Migen.WaitTimer.t_ := 5000;
       Migen.WaitTimer.count := Z.max 0 (5000 - Z.of_nat n) |}.
Proof.
  intros E Hm.
  destruct (init_fields v c E)
    as (_ & _ & _ & _ & _ & _ & _ & _ & Htimer & _).
  induction n as [|n IH]; intros Hlater.
  - rewrite Nat.add_0_r. cbn [state_at]. unfold tick. cbn [fst timer].
    rewrite Hm, Htimer. reflexivity.
  - replace (S m + S n)%nat with (S (S m + n)) by lia.
    cbn [state_at]. unfold tick at 1. cbn [fst timer].
    rewrite (Hlater (S m + n)%nat) by lia.
    rewrite IH by (intros j Hj; apply Hlater; lia).
    unfold Migen.sync.
    rewrite (timer_next_count _ 5000)
      by (cbn [Migen.WaitTimer.t_ Migen.WaitTimer.count]; lia).
    cbn [Migen.WaitTimer.count]. f_equal. lia.
Qed.

(** ** Start-up of the core *)

Lemma timer_before_sys_reset (v : string) (c : t) (T : nat)
    (ins : nat -> Inputs) (n : nat) :
  __init__ v = Some c ->
  (forall k, (k < n)%nat -> ResetSignal (ins k) = false) ->
  timer (state_at c T ins n)
  = {| Migen.WaitTimer.t_ := 5000;
       Migen.WaitTimer.count := Z.max 0 (5000 - Z.of_nat n) |}.
Proof.
  intros E.
  destruct (init_fields v c E)
    as (_ & _ & _ & _ & _ & _ & _ & _ & Htimer & _).
  induction n as [|n IH]; intros Hrst.
  - cbn [state_at power_up timer]. rewrite Htimer. reflexivity.
  - cbn [state_at]. unfold tick at 1. cbn [fst timer].
    rewrite (Hrst n) by lia.
    rewrite IH by (intros k Hk; apply Hrst; lia).
    unfold Migen.sync.
    rewrite (timer_next_count _ 5000)
      by (cbn [Migen.WaitTimer.t_ Migen.WaitTimer.count]; lia).
    cbn [Migen.WaitTimer.count]. f_equal. lia.
Qed.

(** The timer sees the reset of the [sys] domain and nothing else of what
    a cycle brings. *)
Lemma timer_sees_sys_reset_only (c : t) (T : nat)
    (ins ins' : nat -> Inputs) (n : nat) :
  (forall k, (k < n)%nat -> ResetSignal (ins' k) = ResetSignal (ins k)) ->
  timer (state_at c T ins' n) = timer (state_at c T ins n).
Proof.
  induction n as [|n IH]; intros Hsame; [ reflexivity | ].
  cbn [state_at]. unfold tick. cbn [fst timer].
  rewrite (Hsame n) by lia.
  rewrite IH by (intros k Hk; apply Hsame; lia). reflexivity.
Qed.

Lemma pin_of_count (n : nat) :
  Migen.WaitTimer.done
    {| Migen.WaitTimer.t_ := 5000;
       Migen.WaitTimer.count := Z.max 0 (5000 - Z.of_nat n) |}
  = (5000 <=? Z.of_nat n).
Proof.
  unfold Migen.WaitTimer.done. cbn [Migen.WaitTimer.count].
  destruct (Z.eqb_spec (Z.max 0 (5000 - Z.of_nat n)) 0);
    destruct (Z.leb_spec 5000 (Z.of_nat n)); try reflexivity; lia.
Qed.

Lemma pin_before_sys_reset (v : string) (c : t) (T : nat)
    (ins : nat -> Inputs) (n : nat) :
  __init__ v = Some c ->
  (forall k, (k < n)%nat -> ResetSignal (ins k) = false) ->
  i_sys_rst_n (output_at c T ins n) = (5000 <=? Z.of_nat n).
Proof.
  intros E Hrst. unfold output_at, tick. cbn [snd i_sys_rst_n].
  rewrite (timer_before_sys_reset v c T ins n E Hrst).
  apply pin_of_count.
Qed.

Lemma pin_after_sys_reset (v : string) (c : t) (T : nat)
    (ins : nat -> Inputs) (m n : nat) :
  __init__ v = Some c ->
  ResetSignal (ins m) = true ->
  (forall j, (m < j <= m + n)%nat -> ResetSignal (ins j) = false) ->
  i_sys_rst_n (output_at c T ins (S m + n)) = (5000 <=? Z.of_nat n).
Proof.
  intros E Hm Hlater. unfold output_at, tick. cbn [snd i_sys_rst_n].
  rewrite (timer_after_sys_reset v c T ins m n E Hm Hlater).
  apply pin_of_count.
Qed.

(** C9, as the code has it. While the reset of the [sys] domain has been low
    since power-up, the core's active-low reset pin is low in each of the
    first 5000 clock cycles and high in every cycle after them.  The release
    is not for good: a cycle with the reset of the [sys] domain high reloads
    the timer, and the pin is low again for the next 5000 cycles without
    that reset.  The CPU's own [reset] never reaches the pin: two runs that
    differ in it, and in the traffic, but not in the reset of the [sys]
    domain show the same pin in every cycle; that input resets the three
    stages of the bridge. *)
Theorem C9_core_reset_release (v : string) (c : t) (T : nat)
    (ins ins' : nat -> Inputs) (m n : nat) :
  __init__ v = Some c ->
  (forall k, ResetSignal (ins' k) = ResetSignal (ins k)) ->
  ((forall k, (k < n)%nat -> ResetSignal (ins k) = false) ->
   i_sys_rst_n (output_at c T ins n) = (5000 <=? Z.of_nat n)) /\
  (ResetSignal (ins m) = true ->
   (forall j, (m < j <= m + n)%nat -> ResetSignal (ins j) = false) ->
   i_sys_rst_n (output_at c T ins (S m + n)) = (5000 <=? Z.of_nat n)) /\
  i_sys_rst_n (output_at c T ins' n) = i_sys_rst_n (output_at c T ins n) /\
  (forall s i,
     reset i = true ->
     decoder_st (fst (tick c T s i)) = AXIDecoder.IDLE /\
     mem_bus_a2w (fst (tick c T s i)) = AXI2Wishbone.IDLE /\
     io_bus_a2w (fst (tick c T s i)) = AXI2Wishbone.IDLE).
Proof.
  intros E Hsame.
  split; [ | split; [ | split ] ].
  - intros Hrst. exact (pin_before_sys_reset v c T ins n E Hrst).
  - intros Hm Hlater. exact (pin_after_sys_reset v c T ins m n E Hm Hlater).
  - unfold output_at, tick. cbn [snd i_sys_rst_n].
    rewrite (timer_sees_sys_reset_only c T ins ins' n)
      by (intros k _; apply Hsame).
    reflexivity.
  - intros s i Hi.
    unfold tick, AXI2Wishbone.step_r, ResetInserter, stage_reset.
    cbn [fst snd decoder_st mem_bus_a2w io_bus_a2w].
    rewrite Hi, orb_true_r. repeat split.
Qed.

Lemma C9_core_reset_release_witness :
  exists c, __init__ "standard" = Some c /\
    let quiet_cycle := fun r : bool =>
      {| ResetSignal := false; reset := r;
         decoder_in := AXIDecoder.mkIn None None;
         mem_in := AXI2Wishbone.silent; io_in := AXI2Wishbone.silent |} in
    let ins := fun _ : nat => quiet_cycle false in
    let ins' := fun _ : nat => quiet_cycle true in
    i_sys_rst_n (output_at c 1 ins 4999) = false /\
    i_sys_rst_n (output_at c 1 ins' 4999) = i_sys_rst_n (output_at c 1 ins 4999).
Proof.
  eexists. split; [ reflexivity | ]. cbv zeta.
  pose proof (C9_core_reset_release "standard" _ 1
                (fun _ : nat =>
                   {| ResetSignal := false; reset := false;
                      decoder_in := AXIDecoder.mkIn None None;
                      mem_in := AXI2Wishbone.silent;
                      io_in := AXI2Wishbone.silent |})
                (fun _ : nat =>
                   {| ResetSignal := false; reset := true;
                      decoder_in := AXIDecoder.mkIn None None;
                      mem_in := AXI2Wishbone.silent;
                      io_in := AXI2Wishbone.silent |})
                0 4999 eq_refl (fun _ => eq_refl))
    as (Hfirst & _ & Hsame & _).
  split; [ exact (Hfirst (fun _ _ => eq_refl)) | exact Hsame ].
Defined.

(** C9 as stated fails: with the reset of the [sys] domain high in cycle
    5000 and in no other, the pin is high in cycle 5000, as released, low
    again in the cycle after it and still low 4999 cycles later. *)
Lemma C9_counterexample :
  exists c, __init__ "standard" = Some c /\
    let ins := fun k : nat =>
      {| ResetSignal := Nat.eqb k 5000; reset := false;
         decoder_in := AXIDecoder.mkIn None None;
         mem_in := AXI2Wishbone.silent; io_in := AXI2Wishbone.silent |} in
    i_sys_rst_n (output_at c 1 ins 5000) = true /\
    i_sys_rst_n (output_at c 1 ins (S 5000 + 0)) = false /\
    i_sys_rst_n (output_at c 1 ins (S 5000 + 4999)) = false.
Proof.
  eexists. split; [ reflexivity | ]. cbv zeta.
  split; [ | split ].
  - refine (pin_before_sys_reset "standard" _ 1 _ 5000 eq_refl _).
    intros k Hk. cbn [ResetSignal]. apply Nat.eqb_neq.
    intros ->. exact (Nat.lt_irrefl _ Hk).
  - refine (pin_after_sys_reset "standard" _ 1 _ 5000 0 eq_refl _ _).
    + apply Nat.eqb_refl.
    + intros j [Hlo Hhi]. rewrite Nat.add_0_r in Hhi.
      exfalso. exact (Nat.lt_irrefl _ (Nat.lt_le_trans _ _ _ Hlo Hhi)).
  - refine (pin_after_sys_reset "standard" _ 1 _ 5000 4999 eq_refl _ _).
    + apply Nat.eqb_refl.
    + intros j [Hlo Hhi]. cbn [ResetSignal]. apply Nat.eqb_neq.
      intros ->. exact (Nat.lt_irrefl _ Hlo).
Qed.

(** X7. A pulse of the [sys] domain's reset puts the core back into reset:
    after a cycle with that reset high the core's reset pin is low for the
    next 5000 cycles without it, and high after them. *)
Theorem X7_sys_reset_rearms (v : string) (c : t) (T : nat)
    (ins : nat -> Inputs) (m n : nat) :
  __init__ v = Some c ->
  ResetSignal (ins m) = true ->
  (forall j, (m < j <= m + n)%nat -> ResetSignal (ins j) = false) ->
  i_sys_rst_n (output_at c T ins (S m + n)) = (5000 <=? Z.of_nat n).
Proof.
  intros E Hm Hlater. unfold output_at, tick. cbn [snd i_sys_rst_n].
  rewrite (timer_after_sys_reset v c T ins m n E Hm Hlater).
  unfold Migen.WaitTimer.done. cbn [Migen.WaitTimer.count].
  destruct (Z.eqb_spec (Z.max 0 (5000 - Z.of_nat n)) 0);
    destruct (Z.leb_spec 5000 (Z.of_nat n)); try reflexivity; lia.
Qed.

Lemma X7_sys_reset_rearms_witness :
  exists c, __init__ "standard" = Some c /\
    let ins := fun n : nat =>
      {| ResetSignal := Nat.eqb n 2; reset := false;
         decoder_in := AXIDecoder.mkIn None None;
         mem_in := AXI2Wishbone.silent; io_in := AXI2Wishbone.silent |} in
    i_sys_rst_n (output_at c 1 ins (3 + 10)) = false.
Proof.
  eexists. split; [ reflexivity | ]. cbv zeta.
  refine (X7_sys_reset_rearms "standard" _ 1 _ 2 10 _ _ _).
  - reflexivity.
  - reflexivity.
  - intros j Hj. cbn [ResetSignal]. apply Nat.eqb_neq. lia.
Defined.

(** ** Writes through the I/O path *)

Lemma div2_testbit (a i : Z) :
  0 <= i -> Z.testbit (Z.div2 a) i = Z.testbit a (i + 1).
Proof. intros Hi. rewrite Z.div2_spec. apply Z.shiftr_spec. exact Hi. Qed.

Lemma popcount_ext (n : nat) :
  forall s s',
    (forall i, 0 <= i < Z.of_nat n -> Z.testbit s i = Z.testbit s' i) ->
    popcount n s = popcount n s'.
Proof.
  induction n as [|n IH]; intros s s' H; [ reflexivity | ].
  cbn [popcount]. rewrite <- !Z.bit0_odd, (H 0) by lia.
  f_equal. apply IH. intros i Hi.
  rewrite !div2_testbit by lia. apply H. lia.
Qed.

Lemma popcount_split (a b : nat) :
  forall s,
    popcount (a + b) s
    = (popcount a s + popcount b (Z.shiftr s (Z.of_nat a)))%nat.
Proof.
  induction a as [|a IH]; intros s.
  - cbn [popcount Nat.add]. rewrite Z.shiftr_0_r. reflexivity.
  - cbn [popcount Nat.add]. rewrite IH, Z.div2_spec.
    rewrite Z.shiftr_shiftr by lia.
    replace (1 + Z.of_nat a) with (Z.of_nat (S a)) by lia. lia.
Qed.

Lemma popcount_zero_iff (n : nat) :
  forall s,
    popcount n s = O
    <-> (forall i, 0 <= i < Z.of_nat n -> Z.testbit s i = false).
Proof.
  induction n as [|n IH]; intros s.
  - split; [ intros _ i Hi; lia | reflexivity ].
  - cbn [popcount]. rewrite <- Z.bit0_odd. split.
    + intros H i Hi.
      destruct (Z.testbit s 0) eqn:E0; [ discriminate | ].
      destruct (Z.eq_dec i 0) as [->|Hne]; [ exact E0 | ].
      cbn [Nat.add] in H. apply IH with (i := i - 1) in H; [ | lia ].
      rewrite div2_testbit in H by lia.
      replace (i - 1 + 1) with i in H by lia. exact H.
    + intros H. rewrite (H 0) by lia. cbn [Nat.add].
      apply IH. intros i Hi. rewrite div2_testbit by lia. apply H. lia.
Qed.

(** Of the 64 strobes of a wide beat the narrow beat keeps the low four. *)
Lemma strobes_of_beat (s : Z) :
  0 <= s < 2 ^ 64 ->
  (popcount 4 (s mod 2 ^ 4) <= popcount 64 s)%nat /\
  (popcount 4 (s mod 2 ^ 4) = popcount 64 s <-> s < 2 ^ 4).
Proof.
  intros Hs.
  assert (Hlow : popcount 4 (s mod 2 ^ 4) = popcount 4 s).
  { apply popcount_ext. intros i Hi. apply Z.mod_pow2_bits_low. lia. }
  change 64%nat with (4 + 60)%nat. rewrite popcount_split, Hlow.
  split; [ lia | ].
  split.
  - intros H.
    assert (H0 : popcount 60 (Z.shiftr s (Z.of_nat 4)) = O) by lia.
    rewrite popcount_zero_iff in H0.
    assert (Hmod : s = s mod 2 ^ 4).
    { apply Z.bits_inj'. intros i Hi.
      rewrite Z.testbit_mod_pow2 by lia.
      destruct (Z.ltb_spec i 4) as [Hlt|Hge]; [ reflexivity | ].
      cbn [andb].
      destruct (Z.ltb_spec i 64) as [H64|H64].
      - specialize (H0 (i - 4) ltac:(lia)).
        rewrite Z.shiftr_spec in H0 by lia.
        replace (i - 4 + Z.of_nat 4) with i in H0 by lia. exact H0.
      - apply (testbit_high 64); lia. }
    pose proof (Z.mod_pos_bound s (2 ^ 4) ltac:(lia)). lia.
  - intros H.
    assert (H0 : popcount 60 (Z.shiftr s (Z.of_nat 4)) = O); [ | lia ].
    apply popcount_zero_iff. intros i Hi.
    rewrite Z.shiftr_spec by lia. apply (testbit_high 4); lia.
Qed.

(** X8. A stream of wide write beats never has more enabled bytes on the
    narrow side of the I/O path than on the wide side, and it has as many
    exactly when every beat enables byte lanes 0 to 3 only: a write that
    enables any of the byte lanes 4 to 63 loses those bytes. *)
Theorem X8_write_kept_iff_low_lanes (v : string) (c : t)
    (beats : list WBeat) :
  __init__ v = Some c ->
  Forall (fun b => 0 <= w_strb b < 2 ^ 64) beats ->
  (enabled_bytes (io_axi_down_conv c) (io_w_stream c beats)
   <= enabled_bytes (io_axi_litex c) beats)%nat /\
  (enabled_bytes (io_axi_down_conv c) (io_w_stream c beats)
   = enabled_bytes (io_axi_litex c) beats
   <-> Forall (fun b => w_strb b < 2 ^ 4) beats).
Proof.
  intros E Hwf.
  destruct (init_fields v c E) as (_ & _ & _ & _ & Hup & Hdown & _).
  unfold enabled_bytes, io_w_stream. rewrite Hup, Hdown.
  cbn [axi.data_width].
  change (Z.to_nat (512 / 8)) with 64%nat.
  change (Z.to_nat (32 / 8)) with 4%nat.
  induction Hwf as [|b rest Hb Hrest [IHle IHeq]].
  - cbn. split; [ lia | ]. split; [ constructor | reflexivity ].
  - cbn [map fold_right]. rewrite (io_w_eq v c b E). cbn [w_strb].
    destruct (strobes_of_beat (w_strb b) Hb) as [Hle Heq].
    split; [ lia | ].
    split.
    + intros H. constructor; [ apply Heq | apply IHeq ]; lia.
    + intros H. inversion H as [|b' rest' Hb4 Hrest4]; subst.
      apply Heq in Hb4. apply IHeq in Hrest4. lia.
Qed.

Lemma X8_write_kept_iff_low_lanes_witness :
  exists c, __init__ "standard" = Some c /\
    let beats := [mkW 0 0xDEADBEEF 0xF true; mkW 1 (2 ^ 40) 0x30 true] in
    (enabled_bytes (io_axi_down_conv c) (io_w_stream c beats)
     <= enabled_bytes (io_axi_litex c) beats)%nat /\
    (enabled_bytes (io_axi_down_conv c) (io_w_stream c beats)
     = enabled_bytes (io_axi_litex c) beats
     <-> Forall (fun b => w_strb b < 2 ^ 4) beats).
Proof.
  eexists. split; [ reflexivity | ].
  apply (X8_write_kept_iff_low_lanes "standard").
  - reflexivity.
  - repeat constructor; cbn; lia.
Defined.

(** X12. [connect] alone brings the narrow read value back in lane 0 of the
    wide response and leaves the lanes 1 to 15 at zero: those lanes get the
    value from the statement on [r.data[32:]] and from nothing else. *)
Theorem X12_connect_fills_lane0_only (v : string) (c : t) (down : RBeat)
    (k : Z) :
  __init__ v = Some c ->
  0 <= r_data down < 2 ^ 32 ->
  0 <= k < 512 / 32 ->
  lane 32 (r_data (connect_r (io_axi_litex c) (io_axi_down_conv c) down)) k
  = if k =? 0 then r_data down else 0.
Proof.
  intros E Hv Hk. change (512 / 32) with 16 in Hk.
  destruct (init_fields v c E) as (_ & _ & _ & _ & Hup & _).
  unfold connect_r. cbn [r_data]. rewrite Hup. cbn [axi.data_width].
  assert (Hbig : 0 <= r_data down < 2 ^ 512).
  { split; [ lia | ].
    apply Z.lt_le_trans with (2 ^ 32); [ lia | ].
    apply Z.pow_le_mono_r; lia. }
  rewrite eq_small by exact Hbig.
  unfold lane, Migen.slice.
  replace (32 * k + 32 - 32 * k) with 32 by lia.
  rewrite Z.shiftr_div_pow2 by lia.
  destruct (Z.eqb_spec k 0) as [->|Hk0].
  - cbn [Z.mul]. change (2 ^ 0) with 1. rewrite Z.div_1_r.
    apply Z.mod_small. exact Hv.
  - rewrite Z.div_small; [ reflexivity | ].
    split; [ lia | ].
    apply Z.lt_le_trans with (2 ^ 32); [ lia | ].
    apply Z.pow_le_mono_r; lia.
Qed.

Lemma X12_connect_fills_lane0_only_witness :
  exists c, __init__ "standard" = Some c /\
    lane 32
      (r_data (connect_r (io_axi_litex c) (io_axi_down_conv c)
                 (mkR 3 0xDEADBEEF 0 true))) 1
    = 0.
Proof.
  eexists. split; [ reflexivity | ].
  apply (X12_connect_fills_lane0_only "standard" _
           (mkR 3 0xDEADBEEF 0 true) 1).
  - reflexivity.
  - cbn. lia.
  - cbn. lia.
Defined.

(** ** Ports of the core *)

(** X9. Every port of the core that [cpu_params] binds to a bus field is
    bound to a field of [mem_axi], and its name spells that field: the
    channel and the field after [m_axi_], with [o_] when the master drives
    the field (payload and [valid] of [aw], [w] and [ar], [ready] of [b] and
    [r]) and [i_] when the slave does.  Each of the five channels has its
    [valid] and its [ready] bound. *)
Theorem X9_ports_spell_their_fields :
  Forall (fun p : string * Binding =>
            match snd p with
            | Field bus ch f => bus = Name.mem_axi /\ fst p = port_name ch f
            | _ => True
            end) cpu_params /\
  Forall (fun ch =>
            In (port_name ch "valid", Field Name.mem_axi ch "valid") cpu_params /\
            In (port_name ch "ready", Field Name.mem_axi ch "ready") cpu_params /\
            master_drives ch "valid" = negb (master_drives ch "ready"))
         [Channel.AW; Channel.W; Channel.B; Channel.AR; Channel.R].
Proof.
  split.
  - unfold cpu_params.
    repeat (apply Forall_cons;
            [ cbn [snd fst]; first [ exact I | split; reflexivity ] | ]).
    apply Forall_nil.
  - repeat (apply Forall_cons;
            [ split; [ | split; [ | reflexivity ] ];
              vm_compute; repeat (first [ left; reflexivity | right ]) | ]).
    apply Forall_nil.
Qed.

(** ** Sources of the core *)

(** X11. [add_sources] hands the copy command to [os.system] exactly when
    [generated.v] is missing from the working directory, and not otherwise;
    so a [generated.v] that is there keeps its contents, whatever the copy
    would deliver.  A missing [generated.v] becomes
    what the copy delivers.  No other file changes: [generated.sv], the file
    that is always registered with the platform, is neither looked for nor
    written. *)
Theorem X11_add_sources_registers_sv (w : World) (f : string) :
  commands (add_sources w)
  = commands w
    ++ (if os_path_exists w "generated.v" then [] else [cp_generated_v]) /\
  sources (add_sources w) = sources w ++ ["generated.sv"%string] /\
  read (cwd (add_sources w)) f
  = (if String.eqb "generated.v" f
     then match read (cwd w) "generated.v" with
          | Some contents => Some contents
          | None => copy_delivers w
          end
     else read (cwd w) f) /\
  read (cwd (add_sources w)) "generated.sv" = read (cwd w) "generated.sv".
Proof.
  assert (Hread : forall g,
    read (cwd (add_sources w)) g
    = (if String.eqb "generated.v" g
       then match read (cwd w) "generated.v" with
            | Some contents => Some contents
            | None => copy_delivers w
            end
       else read (cwd w) g)).
  { intros g. unfold add_sources, add_source, os_system, os_path_exists.
    destruct (read (cwd w) "generated.v") as [old|] eqn:Eold;
      cbn [negb cwd].
    - destruct (String.eqb_spec "generated.v" g) as [<-|Hne];
        [ exact Eold | reflexivity ].
    - rewrite String.eqb_refl.
      destruct (copy_delivers w) as [contents|]; cbn [read].
      + destruct (String.eqb "generated.v" g); reflexivity.
      + destruct (String.eqb_spec "generated.v" g) as [<-|Hne];
          [ exact Eold | reflexivity ]. }
  split.
  { unfold add_sources, add_source, os_system.
    destruct (os_path_exists w "generated.v"); cbn [negb commands];
      [ symmetry; apply app_nil_r | reflexivity ]. }
  split.
  { unfold add_sources, add_source, os_system.
    destruct (os_path_exists w "generated.v"); reflexivity. }
  split; [ apply Hread | apply Hread ].
Qed.

(** ** More on the read data of the I/O path *)

(** X10. Cutting [Replicate(v, n + m)] to the width of [n] copies leaves
    [Replicate(v, n)].  The wrapper assigns 16 copies, 512 bits, to the 480
    bits of [r.data[32:]]: the slice takes 15 of them, and with lane 0 from
    [connect] the whole response word is [Replicate(v, 16)], a 512-bit
    value. *)
Theorem X10_replicate_cut (v : string) (c : t) (down : RBeat)
    (w x : Z) (n m : nat) :
  __init__ v = Some c ->
  0 < w ->
  0 <= r_data down < 2 ^ 32 ->
  Migen.eq_ (w * Z.of_nat n) (Migen.Replicate w x (n + m))
  = Migen.Replicate w x n /\
  r_data (io_r c down) = Migen.Replicate 32 (r_data down) 16 /\
  0 <= r_data (io_r c down) < 2 ^ 512.
Proof.
  intros E Hw Hv.
  assert (Hcut : Migen.eq_ (w * Z.of_nat n) (Migen.Replicate w x (n + m))
                 = Migen.Replicate w x n).
  { apply Z.bits_inj'. intros j Hj. unfold Migen.eq_.
    rewrite Z.testbit_mod_pow2 by nia.
    rewrite !Replicate_testbit by lia.
    destruct (Z.ltb_spec j (w * Z.of_nat n)) as [Hlt|Hge];
      [ | reflexivity ].
    destruct (Z.ltb_spec j (w * Z.of_nat (n + m))); [ reflexivity | nia ]. }
  assert (Hword : r_data (io_r c down) = Migen.Replicate 32 (r_data down) 16).
  { apply Z.bits_inj'. intros j Hj.
    rewrite (io_r_data_bits v c down j E Hv Hj).
    rewrite Replicate_testbit by lia. reflexivity. }
  split; [ exact Hcut | ]. split; [ exact Hword | ].
  rewrite Hword.
  assert (Hmod : Migen.Replicate 32 (r_data down) 16
                 = Migen.Replicate 32 (r_data down) 16 mod 2 ^ 512).
  { apply Z.bits_inj'. intros j Hj.
    rewrite Z.testbit_mod_pow2 by lia.
    rewrite !Replicate_testbit by lia.
    change (32 * Z.of_nat 16) with 512.
    destruct (j <? 512); reflexivity. }
  rewrite Hmod. apply Z.mod_pos_bound. lia.
Qed.

Lemma X10_replicate_cut_witness :
  exists c, __init__ "standard" = Some c /\
    Migen.eq_ (32 * Z.of_nat 15) (Migen.Replicate 32 0xDEADBEEF (15 + 1))
    = Migen.Replicate 32 0xDEADBEEF 15 /\
    r_data (io_r c (mkR 3 0xDEADBEEF 0 true))
    = Migen.Replicate 32 0xDEADBEEF 16 /\
    0 <= r_data (io_r c (mkR 3 0xDEADBEEF 0 true)) < 2 ^ 512.
Proof.
  eexists. split; [ reflexivity | ].
  apply (X10_replicate_cut "standard" _ (mkR 3 0xDEADBEEF 0 true)
           32 0xDEADBEEF 15 1).
  - reflexivity.
  - lia.
  - cbn. lia.
Defined.

Lemma io_r_lane (v : string) (c : t) (down : RBeat) (k : Z) :
  __init__ v = Some c ->
  0 <= r_data down < 2 ^ 32 ->
  0 <= k < 16 ->
  lane 32 (r_data (io_r c down)) k = r_data down.
Proof.
  intros E Hv Hk. apply Z.bits_inj'. intros j Hj. unfold lane.
  destruct (Z.ltb_spec j 32) as [H32|H32].
  - rewrite slice_testbit by lia.
    rewrite (io_r_data_bits v c down _ E Hv) by lia.
    destruct (Z.ltb_spec (j + 32 * k) 512); [ | lia ].
    cbn [andb]. f_equal.
    rewrite Z.mul_comm, Z.mod_add by lia. apply Z.mod_small. lia.
  - unfold Migen.slice. rewrite Z.mod_pow2_bits_high by lia.
    symmetry. apply (testbit_high 32); lia.
Qed.

(** X13. Round trip through the I/O path: when the 32 bits that a wide write
    beat puts on the narrow channel come back as the narrow read value, every
    lane of the wide read response holds lane 0 of the data written. *)
Theorem X13_lane0_written_is_read_back (v : string) (c : t)
    (written : WBeat) (rid rresp : Z) (rlast : bool) (k : Z) :
  __init__ v = Some c ->
  0 <= k < 512 / 32 ->
  lane 32
    (r_data (io_r c {| r_id := rid;
                       r_data := w_data (io_w c written);
                       r_resp := rresp;
                       r_last := rlast |})) k
  = lane 32 (w_data written) 0.
Proof.
  intros E Hk.
  assert (Hnarrow : 0 <= w_data (io_w c written) < 2 ^ 32).
  { rewrite (io_w_eq v c written E). cbn [w_data].
    apply Z.mod_pos_bound. lia. }
  change (512 / 32) with 16 in Hk.
  rewrite (io_r_lane v c _ k E) by (cbn [r_data]; assumption).
  cbn [r_data]. rewrite (io_w_eq v c written E). cbn [w_data].
  unfold lane, Migen.slice. cbn [Z.mul Z.add].
  rewrite Z.shiftr_0_r. reflexivity.
Qed.

Lemma X13_lane0_written_is_read_back_witness :
  exists c, __init__ "standard" = Some c /\
    let written := mkW 5 (0xCAFE * 2 ^ 32 + 0xDEADBEEF) 0xFF true in
    lane 32
      (r_data (io_r c {| r_id := 5;
                         r_data := w_data (io_w c written);
                         r_resp := 0;
                         r_last := true |})) 7
    = lane 32 (w_data written) 0.
Proof.
  eexists. split; [ reflexivity | ].
  apply (X13_lane0_written_is_read_back "standard" _
           (mkW 5 (0xCAFE * 2 ^ 32 + 0xDEADBEEF) 0xFF true) 5 0 true 7).
  - reflexivity.
  - cbn. lia.
Defined.

